(** * kids-server: the device registry, connection gateway and request broker

    A shallow embedding of [src/index.js].  The server is a single event loop:
    every HTTP handler, socket handler and timer callback runs to completion
    before the next one starts, so the program is a transition function
    [step : state -> event -> state * list output] over the module-level
    variables of the file ([devices], [deviceByKey], [deviceByDeviceId],
    [pendingRequests], [cacheDirty]) and the objects they share.

    Device objects are mutable and shared by reference between the array
    [devices], the two [Map] indices and [socket.deviceObj]; they live in a
    store ([objs]) and everything else holds locations into it. *)

From stdpp Require Import gmap strings list fin_maps pretty.
From Stdlib Require Import ZArith Lia.

Open Scope string_scope.
Open Scope list_scope.

(** ** JavaScript values that cross the boundary *)

(** Scalar payload fields of a device reply ([response.status],
    [response.message], [response.requestId]). *)
Inductive jsval :=
| JUndefined
| JNull
| JBool (b : bool)
| JNum (n : Z)
| JStr (s : string).

(** What [new Date(device.expDate).getTime()] evaluates to for a truthy
    [expDate]: epoch milliseconds, or [NaN] when the value does not parse. *)
Inductive jsdate :=
| Millis (t : Z)
| NaN.

(** [!s] for a string: only the empty string is falsy. *)
Definition truthy (s : string) : bool := negb (String.eqb s "").

(** A request-body or handshake field: absent ([undefined]) or a string. *)
Definition field_truthy (f : option string) : bool :=
  match f with
  | Some s => truthy s
  | None => false
  end.

(** ** The data model *)

Abbreviation loc := nat (only parsing).

(** A device object, lines 87-93. *)
Record device := Device {
  id : string;
  key : string;
  deviceid : string;
  expDate : option jsdate;
  socketid : option string
}.

#[global] Instance device_inhabited : Inhabited device :=
  populate (Device "" "" "" None None).

(** The part of a connected socket the handlers close over:
    [socket.deviceId], [socket.deviceObj] and [lastHeartbeat].  A socket is
    in [sockets] (the server's [io.sockets.sockets]) exactly while it is
    connected; its [heartbeatCheck] interval is scheduled for the same
    span, being set on connection and cleared by the disconnect handler. *)
Record socket := Socket {
  sock_deviceId : string;
  deviceObj : loc;
  lastHeartbeat : Z
}.

(** The [timeout] handle created by [setTimeout] in /send. *)
Inductive timer_state := Armed | Cleared | Fired.

(** The promise awaited by /send. *)
Inductive promise_state := Pending | Resolved | Rejected.

(** One /send call that got as far as [new Promise]: the closure variables
    [requestId], [timeout] and the promise whose settlement answers [res].
    The resolver stored in [pendingRequests] is the closure of one call, so
    the table maps a request id to the index of that call. *)
Record call := Call {
  requestId : string;
  timeout : timer_state;
  promise : promise_state
}.

Record state := State {
  objs : list device;
  devices : list loc;
  deviceByKey : gmap string loc;
  deviceByDeviceId : gmap string loc;
  pendingRequests : gmap string nat;
  cacheDirty : bool;
  sockets : gmap string socket;
  calls : list call
}.

Definition init : state := State [] [] ∅ ∅ ∅ false ∅ [].

(** Reading through a reference. *)
Definition deref (s : state) (l : loc) : device := objs s !!! l.

Definition set_socketid (v : option string) (d : device) : device :=
  Device (id d) (key d) (deviceid d) (expDate d) v.

(** [obj.socketid = v] for the object at [l]: every holder of [l] sees it. *)
Definition write_socketid (l : loc) (v : option string) (s : state) : state :=
  State (alter (set_socketid v) l (objs s)) (devices s) (deviceByKey s)
        (deviceByDeviceId s) (pendingRequests s) (cacheDirty s) (sockets s)
        (calls s).

Definition set_cacheDirty (b : bool) (s : state) : state :=
  State (objs s) (devices s) (deviceByKey s) (deviceByDeviceId s)
        (pendingRequests s) b (sockets s) (calls s).

Definition set_sockets (m : gmap string socket) (s : state) : state :=
  State (objs s) (devices s) (deviceByKey s) (deviceByDeviceId s)
        (pendingRequests s) (cacheDirty s) m (calls s).

Definition set_pending (m : gmap string nat) (cs : list call) (s : state) : state :=
  State (objs s) (devices s) (deviceByKey s) (deviceByDeviceId s)
        m (cacheDirty s) (sockets s) cs.

(** ** What the server emits *)

(** JSON bodies passed to [res.json]. *)
Inductive body :=
| ErrorBody (error : string)
| CreatedBody (message id deviceid : string)
| MessageBody (message : string)
| RegisteredBody (message deviceid : string)
| ProcessedBody (message : string) (status deviceMessage : jsval)
| TimeoutBody (error : string) (status : bool).

(** Server-to-device events: [force_disconnect], [insert-sms], [connected]. *)
Inductive payload :=
| ForceDisconnect (reason : string)
| InsertSms (destNumber textMessage requestId : string)
| Connected (message deviceId : string).

Inductive output :=
| Respond (code : nat) (b : body)
    (* res.status(code).json(b) of the request being handled *)
| RespondCall (c : nat) (code : nat) (b : body)
    (* the same on the [res] of /send call [c], after its [await] *)
| Emit (room : string) (p : payload)
    (* io.to(room).emit / socket.emit *)
| SetTimeout (c : nat) (ms : Z)
| NextError (msg : string)
    (* next(new Error(msg)) in the handshake middleware *)
| WriteFile (doc : list device)
    (* a completed fs.writeFile(DEVICES_FILE, JSON.stringify(doc)) *)
| ConsoleError (msg : string)
| Listen
| ServerClose
| Exit (code : nat).

(** The payload of a device's [sms-response]. *)
Record response := Response {
  resp_requestId : jsval;
  resp_status : jsval;
  resp_message : jsval
}.

(** ** The registry: lines 70-151 *)

(** A field that passes an [if (!x)] guard. *)
Definition present (f : option string) : option string :=
  match f with
  | Some v => if truthy v then Some v else None
  | None => None
  end.

(** [crypto.randomBytes(n).toString("hex")] is the caller-visible draw; the
    handlers receive the hex string. *)
Definition generateId (hex : string) : string := hex.
Definition generateDeviceId (hex : string) : string := "dev_" +:+ hex.

Definition isKeyValid (d : device) (now : Z) : bool :=
  match expDate d with
  | None => true
  | Some (Millis t) => (now <? t)%Z
  | Some NaN => false
  end.

Fixpoint findIndex {A} (p : A → bool) (l : list A) : option nat :=
  match l with
  | [] => None
  | x :: l' => if p x then Some 0%nat else S <$> findIndex p l'
  end.

(** [devices.splice(index, 1)] guarded by [index !== -1]. *)
Definition splice_found {A} (i : option nat) (l : list A) : list A :=
  match i with
  | Some n => delete n l
  | None => l
  end.

(** The [disconnect] listener of a socket, lines 255-263.  [socket.deviceObj]
    is an object, so the guard around the two assignments always passes. *)
Definition on_disconnect (sock : socket) (s : state) : state :=
  set_cacheDirty true (write_socketid (deviceObj sock) None s).

(** socket.io's [socket.disconnect()] and a transport-level close: the
    socket leaves [io.sockets.sockets] and its [disconnect] listener runs.
    A socket that is not connected has no listener left to run. *)
Definition disconnect (sid : string) (s : state) : state :=
  match sockets s !! sid with
  | Some sock => on_disconnect sock (set_sockets (delete sid (sockets s)) s)
  | None => s
  end.

(** app.post("/device"), lines 74-105. *)
Definition post_device (k : option string) (exp : option jsdate)
    (rnd_id rnd_dev : string) (s : state) : state * list output :=
  match present k with
  | None => (s, [Respond 400 (ErrorBody "Key is required")])
  | Some k =>
    match deviceByKey s !! k with
    | Some _ => (s, [Respond 409 (ErrorBody "Key already exists")])
    | None =>
      let i := generateId rnd_id in
      let did := generateDeviceId rnd_dev in
      let newDevice := Device i k did exp None in
      let l := length (objs s) in
      (State (objs s ++ [newDevice]) (devices s ++ [l])
             (<[k := l]> (deviceByKey s)) (<[did := l]> (deviceByDeviceId s))
             (pendingRequests s) true (sockets s) (calls s),
       [Respond 201 (CreatedBody "Device key created successfully" i did)])
    end
  end.

(** The first half of app.delete("/device/:key"), lines 115-120: tell the
    bound connection and sever it. *)
Definition delete_notify (l : loc) (s : state) : state * list output :=
  match present (socketid (deref s l)) with
  | Some sid =>
    (disconnect sid s, [Emit sid (ForceDisconnect "Device key was deleted")])
  | None => (s, [])
  end.

(** The second half, lines 122-126: drop the record everywhere. *)
Definition delete_remove (k : string) (l : loc) (s : state) : state :=
  let index := findIndex (λ l', String.eqb (key (deref s l')) k) (devices s) in
  let did := deviceid (deref s l) in
  State (objs s) (splice_found index (devices s)) (delete k (deviceByKey s))
        (if truthy did then delete did (deviceByDeviceId s)
         else deviceByDeviceId s)
        (pendingRequests s) true (sockets s) (calls s).

(** app.delete("/device/:key"), lines 107-129. *)
Definition delete_device (k : string) (s : state) : state * list output :=
  match deviceByKey s !! k with
  | None => (s, [Respond 404 (ErrorBody "Device key not found")])
  | Some l =>
    let '(s1, out) := delete_notify l s in
    (delete_remove k l s1,
     out ++ [Respond 200 (MessageBody "Device key deleted successfully")])
  end.

(** app.post("/register"), lines 131-151. *)
Definition post_register (k : option string) (now : Z) (s : state)
    : state * list output :=
  match present k with
  | None => (s, [Respond 400 (ErrorBody "Key is required")])
  | Some k =>
    match deviceByKey s !! k with
    | None => (s, [Respond 404 (ErrorBody "Invalid key")])
    | Some l =>
      if isKeyValid (deref s l) now
      then (s, [Respond 200 (RegisteredBody "Device registered successfully"
                                            (deviceid (deref s l)))])
      else (s, [Respond 400 (ErrorBody "Key has expired")])
    end
  end.

(** ** The request broker: lines 153-206 and 237-242 *)

(** The template literal of line 171; [rnd] is
    [Math.random().toString(36).substr(2, 9)]. *)
Definition make_requestId (deviceId : string) (now : Z) (rnd : string) : string :=
  deviceId +:+ "-" +:+ pretty now +:+ "-" +:+ rnd.

Definition set_call (c : nat) (t : timer_state) (p : promise_state)
    (cl : call) (cs : list call) : list call :=
  <[c := Call (requestId cl) t p]> cs.

(** The function stored in [pendingRequests] by call [c], lines 182-185:
    [clearTimeout(timeout); resolve(response)].  Resolving settles a pending
    promise only; the continuation of the [await] then answers [res]
    (lines 194-198) before any other handler runs. *)
Definition resolver (c : nat) (r : response) (s : state) : state * list output :=
  match calls s !! c with
  | None => (s, [])
  | Some cl =>
    let t := match timeout cl with Armed => Cleared | t => t end in
    match promise cl with
    | Pending =>
      (set_pending (pendingRequests s) (set_call c t Resolved cl (calls s)) s,
       [RespondCall c 200 (ProcessedBody "Message processed by device"
                                         (resp_status r) (resp_message r))])
    | p => (set_pending (pendingRequests s) (set_call c t p cl (calls s)) s, [])
    end
  end.

(** The [setTimeout] callback of call [c], lines 177-180, and what its
    [reject] leads to: the [catch] block, lines 199-205.  Only a timer that
    is still scheduled can run. *)
Definition timeout_callback (c : nat) (s : state) : state * list output :=
  match calls s !! c with
  | None => (s, [])
  | Some cl =>
    match timeout cl with
    | Armed =>
      let pend := delete (requestId cl) (pendingRequests s) in
      match promise cl with
      | Pending =>
        (set_pending (delete (requestId cl) pend)
                     (set_call c Fired Rejected cl (calls s)) s,
         [RespondCall c 408 (TimeoutBody "Device did not respond in time" false)])
      | p => (set_pending pend (set_call c Fired p cl (calls s)) s, [])
      end
    | _ => (s, [])
    end
  end.

(** app.post("/send"), lines 153-192: everything up to the [await]. *)
Definition post_send (deviceId destNumber textMessage : option string)
    (now : Z) (rnd : string) (s : state) : state * list output :=
  match present deviceId, present destNumber, present textMessage with
  | Some did, Some dest, Some text =>
    match deviceByDeviceId s !! did with
    | None => (s, [Respond 404 (ErrorBody "Device not registered")])
    | Some l =>
      match present (socketid (deref s l)) with
      | None => (s, [Respond 404 (ErrorBody "Device not connected")])
      | Some sid =>
        let rid := make_requestId did now rnd in
        let c := length (calls s) in
        (set_pending (<[rid := c]> (pendingRequests s))
                     (calls s ++ [Call rid Armed Pending]) s,
         [SetTimeout c 4500; Emit sid (InsertSms dest text rid)])
      end
    end
  | _, _, _ =>
    (s, [Respond 400 (ErrorBody
           "Device ID, destination number, and text message are required")])
  end.

(** socket.on("sms-response"), lines 237-242.  Reading [response.requestId]
    off [undefined] or [null] throws; the [uncaughtException] listener logs
    it.  The keys of [pendingRequests] are strings, so no other value finds
    a resolver. *)
Definition on_sms_response (r : option response) (s : state) : state * list output :=
  match r with
  | None => (s, [ConsoleError "Uncaught Exception:"])
  | Some r =>
    match resp_requestId r with
    | JStr rid =>
      match pendingRequests s !! rid with
      | Some c => resolver c r s
      | None => (s, [])
      end
    | _ => (s, [])
    end
  end.

(** ** The connection gateway: lines 208-264 *)

(** io.use, lines 208-223: an error for [next], or the two fields it sets
    on the socket. *)
Definition auth_middleware (auth : option string) (s : state) : string + string * loc :=
  match present auth with
  | None => inl "Device ID is required"
  | Some did =>
    match deviceByDeviceId s !! did with
    | None => inl "Device not registered"
    | Some l => inr (did, l)
    end
  end.

(** io.on("connection"), lines 225-253, for a socket whose id is [sid]. *)
Definition on_connection (sid did : string) (l : loc) (now : Z) (s : state)
    : state * list output :=
  (set_sockets (<[sid := Socket did l now]> (sockets s))
     (set_cacheDirty true (write_socketid l (Some sid) s)),
   [Emit sid (Connected "Successfully connected to server" did)]).

Definition connect (sid : string) (auth : option string) (now : Z) (s : state)
    : state * list output :=
  match auth_middleware auth s with
  | inl msg => (s, [NextError msg])
  | inr (did, l) => on_connection sid did l now s
  end.

(** socket.on("heartbeat"), lines 251-253. *)
Definition on_heartbeat (sid : string) (now : Z) (s : state) : state :=
  match sockets s !! sid with
  | Some sock =>
    set_sockets (<[sid := Socket (sock_deviceId sock) (deviceObj sock) now]>
                   (sockets s)) s
  | None => s
  end.

(** One tick of the [heartbeatCheck] interval, lines 245-249. *)
Definition heartbeat_check (sid : string) (now : Z) (s : state) : state :=
  match sockets s !! sid with
  | Some sock =>
    if (30000 <? now - lastHeartbeat sock)%Z then disconnect sid s else s
  | None => s
  end.

(** ** Persistence: lines 37-68 and 266-290 *)

(** [JSON.stringify(devices)]: the records as they are now. *)
Definition snapshot (s : state) : list device := deref s <$> devices s.

(** saveDevices, lines 57-66; [wok] tells whether [fs.writeFile] succeeds.
    The records are serialised at the call.  The step stands for the call
    together with the completion of its write, after which the flag is
    cleared: no handler runs in between. *)
Definition saveDevices (wok : bool) (s : state) : state * list output :=
  if cacheDirty s then
    if wok then (set_cacheDirty false s, [WriteFile (snapshot s)])
    else (s, [ConsoleError "Error saving devices:"])
  else (s, []).

(** Lines 281-283. *)
Definition clear_socketids (s : state) : state :=
  foldl (λ s' l, write_socketid l None s') s (devices s).

(** process.on("SIGINT"), lines 278-290.  [server.close] makes the server
    refuse new connections from here on and the process exits once the open
    ones have ended; the state records neither.  Events that follow a
    [Sigint] in a run are those of connections that were open before it. *)
Definition on_sigint (wok : bool) (s : state) : state * list output :=
  let '(s1, out) := saveDevices wok (clear_socketids s) in
  (s1, out ++ [ServerClose]).

(** A JSON value that is not an array.  The fields of an object are never
    read, so an object carries none here. *)
Inductive not_array :=
| ObjectValue
| NullValue
| BoolValue (b : bool)
| NumberValue (n : Z)
| StringValue (t : string).

(** What [fs.readFile] followed by [JSON.parse] can yield: a failed read
    with its [error.code]; text that does not parse; a value that is not an
    array; an array of device records, as a previous run wrote it; or an
    array in which the records [ds] are followed by a [null] and then by
    [rest], further records and [null]s. *)
Inductive file :=
| ReadError (code : string)
| Unparsable
| NotArray (v : not_array)
| Parsed (ds : list device)
| ParsedWithNull (ds : list device) (rest : list (option device)).

(** What the variable [devices] holds when it is not an array of records:
    a value that is not an array, or an array whose elements are references
    to records and [null]s. *)
Inductive garbage :=
| Value (v : not_array)
| Elements (es : list (option loc)).

(** The module-level variables once [loadDevices] is done.  [Registry s]:
    [devices] is an array of records, and the handlers run on [s].
    [Garbled g s]: [devices] holds [g]; [s] gives every other variable and
    the record objects that exist, and its own field [devices] is empty.
    The handlers are modelled on registries only. *)
Inductive memory :=
| Registry (s : state)
| Garbled (g : garbage) (s : state).

Inductive completion := Returns | Throws.

(** The body of the [forEach] of lines 42-47. *)
Definition index_device (s : state) (l : loc) : state :=
  let d := deref s l in
  State (objs s) (devices s) (<[key d := l]> (deviceByKey s))
        (if truthy (deviceid d) then <[deviceid d := l]> (deviceByDeviceId s)
         else deviceByDeviceId s)
        (pendingRequests s) (cacheDirty s) (sockets s) (calls s).

(** The record objects among the elements of an array. *)
Definition records (es : list (option device)) : list device :=
  omap (λ e, e) es.

(** The references that [JSON.parse] gives the elements [es] of an array,
    the first record object being placed at [base]. *)
Fixpoint place (base : nat) (es : list (option device)) : list (option loc) :=
  match es with
  | [] => []
  | Some _ :: es' => Some base :: place (S base) es'
  | None :: es' => None :: place base es'
  end.

(** loadDevices, lines 37-55.  Three things lead into its [catch]: a failed
    read, text that [JSON.parse] rejects, and a [TypeError] from line 42,
    either because the parsed value has no [forEach] or because the callback
    reads [device.key] off a [null] element.  In the last case line 40 has
    already assigned [devices], and the records before the [null] are in
    the indices.  The only thing that escapes the [catch] is a failure of
    the [writeFile] inside it. *)
Definition loadDevices (f : file) (wok : bool) (s : state)
    : memory * list output * completion :=
  match f with
  | Parsed ds =>
    let ls := seq (length (objs s)) (length ds) in
    let s1 := State (objs s ++ ds) ls (deviceByKey s) (deviceByDeviceId s)
                    (pendingRequests s) (cacheDirty s) (sockets s) (calls s) in
    (Registry (foldl index_device s1 ls), [], Returns)
  | ParsedWithNull ds rest =>
    let ls := seq (length (objs s)) (length ds) in
    let s1 := State (objs s ++ ds ++ records rest) [] (deviceByKey s)
                    (deviceByDeviceId s) (pendingRequests s) (cacheDirty s)
                    (sockets s) (calls s) in
    (Garbled (Elements ((Some <$> ls) ++
                        None :: place (length (objs s) + length ds) rest))
             (foldl index_device s1 ls),
     [ConsoleError "Error loading devices:"], Returns)
  | NotArray v =>
    (Garbled (Value v)
             (State (objs s) [] (deviceByKey s) (deviceByDeviceId s)
                    (pendingRequests s) (cacheDirty s) (sockets s) (calls s)),
     [ConsoleError "Error loading devices:"], Returns)
  | Unparsable => (Registry s, [ConsoleError "Error loading devices:"], Returns)
  | ReadError code =>
    if String.eqb code "ENOENT" then
      if wok then (Registry s, [WriteFile []], Returns)
      else (Registry s, [], Throws)
    else (Registry s, [ConsoleError "Error loading devices:"], Returns)
  end.

(** startServer, lines 266-276. *)
Definition startServer (f : file) (wok : bool) : memory * list output :=
  match loadDevices f wok init with
  | (m, out, Returns) => (m, out ++ [Listen])
  | (m, out, Throws) => (m, out ++ [ConsoleError "Failed to start server:"; Exit 1])
  end.

(** ** The event loop *)

Inductive event :=
| PostDevice (k : option string) (exp : option jsdate) (rnd_id rnd_dev : string)
| DeleteDevice (k : string)
| PostRegister (k : option string) (now : Z)
| PostSend (deviceId destNumber textMessage : option string) (now : Z) (rnd : string)
| Connect (sid : string) (auth : option string) (now : Z)
| SmsResponse (sid : string) (r : option response)
| Heartbeat (sid : string) (now : Z)
| HeartbeatCheck (sid : string) (now : Z)
| Disconnect (sid : string)
| TimeoutFires (c : nat)
| SaveTick (wok : bool)
| Sigint (wok : bool).

Definition step (s : state) (e : event) : state * list output :=
  match e with
  | PostDevice k exp rnd_id rnd_dev => post_device k exp rnd_id rnd_dev s
  | DeleteDevice k => delete_device k s
  | PostRegister k now => post_register k now s
  | PostSend did dest text now rnd => post_send did dest text now rnd s
  | Connect sid auth now => connect sid auth now s
  | SmsResponse sid r =>
    match sockets s !! sid with
    | Some _ => on_sms_response r s
    | None => (s, [])
    end
  | Heartbeat sid now => (on_heartbeat sid now s, [])
  | HeartbeatCheck sid now => (heartbeat_check sid now s, [])
  | Disconnect sid => (disconnect sid s, [])
  | TimeoutFires c => timeout_callback c s
  | SaveTick wok => saveDevices wok s
  | Sigint wok => on_sigint wok s
  end.

Fixpoint run (s : state) (es : list event) : state * list output :=
  match es with
  | [] => (s, [])
  | e :: es' =>
    let '(s1, o1) := step s e in
    let '(s2, o2) := run s1 es' in
    (s2, o1 ++ o2)
  end.

(** ** Assumptions on the random draws

    [generateDeviceId] and the request id of /send come from random sources
    that the code trusts to be collision-free: no check follows either
    draw.  [fresh s e] says that the draw made by [e] in state [s] does not
    repeat a device id in the index or the request id of an earlier call. *)
Definition fresh (s : state) (e : event) : bool :=
  match e with
  | PostDevice _ _ _ rnd_dev =>
    bool_decide (deviceByDeviceId s !! generateDeviceId rnd_dev = None)
  | PostSend did _ _ now rnd =>
    bool_decide (make_requestId (default "" did) now rnd ∉ requestId <$> calls s)
  | _ => true
  end.

Fixpoint fresh_trace (s : state) (es : list event) : bool :=
  match es with
  | [] => true
  | e :: es' => fresh s e && fresh_trace (step s e).1 es'
  end.

(** ** Invariants *)

(** The array and the two indices describe the same set of records. *)
Record store_ok (s : state) : Prop := StoreOk {
  ok_nodup : NoDup (devices s);
  ok_bound : ∀ l, l ∈ devices s → (l < length (objs s))%nat;
  ok_by_key : ∀ l, l ∈ devices s → deviceByKey s !! key (deref s l) = Some l;
  ok_by_id : ∀ l, l ∈ devices s →
    deviceByDeviceId s !! deviceid (deref s l) = Some l;
  ok_key_only : ∀ k l, deviceByKey s !! k = Some l →
    l ∈ devices s ∧ key (deref s l) = k ∧ k ≠ "";
  ok_id_only : ∀ i l, deviceByDeviceId s !! i = Some l →
    l ∈ devices s ∧ deviceid (deref s l) = i ∧ i ≠ ""
}.

(** Every resolver in the table belongs to the call that carries its key,
    and no two calls carry the same request id. *)
Record broker_ok (s : state) : Prop := BrokerOk {
  ok_rids : NoDup (requestId <$> calls s);
  ok_pending : ∀ rid c, pendingRequests s !! rid = Some c →
    (requestId <$> calls s) !! c = Some rid
}.

Definition wf (s : state) : Prop := store_ok s ∧ broker_ok s.

(** [s'] differs from [s] at most in connection state: which objects exist,
    their immutable fields and the registry are the same. *)
Record same_registry (s s' : state) : Prop := SameRegistry {
  same_devices : devices s' = devices s;
  same_by_key : deviceByKey s' = deviceByKey s;
  same_by_id : deviceByDeviceId s' = deviceByDeviceId s;
  same_length : length (objs s') = length (objs s);
  same_fields : ∀ l, set_socketid None (deref s' l) = set_socketid None (deref s l)
}.

(** ** What the statements below talk about *)

(** The array and the indices agree: a record is in [devices] exactly when
    each index holds it under its own key, the indices hold nothing else,
    and no key or device id is shared by two records of the array. *)
Definition consistent (s : state) : Prop :=
  NoDup (devices s) ∧
  (∀ l, l ∈ devices s ↔
        deviceByKey s !! key (deref s l) = Some l ∧
        deviceByDeviceId s !! deviceid (deref s l) = Some l) ∧
  (∀ k l, deviceByKey s !! k = Some l → l ∈ devices s ∧ key (deref s l) = k) ∧
  (∀ i l, deviceByDeviceId s !! i = Some l →
          l ∈ devices s ∧ deviceid (deref s l) = i) ∧
  (∀ l1 l2, l1 ∈ devices s → l2 ∈ devices s →
            key (deref s l1) = key (deref s l2) → l1 = l2) ∧
  (∀ l1 l2, l1 ∈ devices s → l2 ∈ devices s →
            deviceid (deref s l1) = deviceid (deref s l2) → l1 = l2).

(** A devices file whose array has a [null] between two records. *)
Definition holed_file : file :=
  ParsedWithNull [Device "01" "k1" "dev_a" None None]
                 [Some (Device "02" "k2" "dev_b" None None)].

(** Sample runs. *)
Definition dev1 : string := "dev_aabbccddeeff001122334455".
Definition dev2 : string := "dev_0102030405060708090a0b0c".

Definition create1 : event :=
  PostDevice (Some "abc123") None "0011223344556677" "aabbccddeeff001122334455".
Definition create2 : event :=
  PostDevice (Some "k2") (Some (Millis 5000)) "8899aabbccddeeff" "0102030405060708090a0b0c".

Definition registry_run : list event :=
  [create1; create2; DeleteDevice "abc123"].

Definition bound_run : list event :=
  [create1; create2; Connect "s1" (Some dev1) 1000].

Definition stale_run : list event :=
  [create1; Connect "s1" (Some dev1) 1000; Connect "s2" (Some dev1) 2000;
   Disconnect "s1"].

Definition rid1 : string := "dev_aabbccddeeff001122334455-3000-k3j9x0q1z".

Definition send1 : event :=
  PostSend (Some dev1) (Some "+15551234567") (Some "hi") 3000 "k3j9x0q1z".

Definition reply1 : response := Response (JStr rid1) (JBool true) (JStr "sent").

Definition sent_run : list event := bound_run ++ [send1].

Definition reply_run : list event := sent_run ++ [SmsResponse "s1" (Some reply1)].

(** The answer of /register for an expired key. *)
Definition expired_response : output := Respond 400 (ErrorBody "Key has expired").

(** The two events that can settle call [c], whose request id is [rid]:
    a reply tagged [rid] and the firing of the call's own timer. *)
Definition settles (c : nat) (rid : string) (e : event) : bool :=
  match e with
  | SmsResponse _ (Some r) =>
    match resp_requestId r with
    | JStr rid' => String.eqb rid' rid
    | _ => false
    end
  | TimeoutFires c' => Nat.eqb c' c
  | _ => false
  end.

(** Call [c] is in flight: timer scheduled, promise pending, resolver in
    the table under [rid]. *)
Definition awaiting (c : nat) (rid : string) (s : state) : Prop :=
  calls s !! c = Some (Call rid Armed Pending) ∧
  pendingRequests s !! rid = Some c.

(** The promise of call [c] is settled. *)
Definition settled (c : nat) (s : state) : Prop :=
  ∃ cl, calls s !! c = Some cl ∧ promise cl ≠ Pending.

(** No output in [os] answers call [c]. *)
Definition silent (c : nat) (os : list output) : Prop :=
  ∀ code b, RespondCall c code b ∉ os.

(** ** Further vocabulary *)

(** [o] is an answer to /send call [c]. *)
Definition answers (c : nat) (o : output) : bool :=
  match o with
  | RespondCall c' _ _ => Nat.eqb c' c
  | _ => false
  end.

(** socket.io gives every connection an id of its own: the id of a
    connecting socket is not that of a socket still connected. *)
Definition new_socket (s : state) (e : event) : bool :=
  match e with
  | Connect sid _ _ => bool_decide (sockets s !! sid = None)
  | _ => true
  end.

Fixpoint new_sockets (s : state) (es : list event) : bool :=
  match es with
  | [] => true
  | e :: es' => new_socket s e && new_sockets (step s e).1 es'
  end.

(** A [socketid] that is set names a connected socket, and that socket
    was bound to this very object. *)
Definition binding_ok (s : state) : Prop :=
  ∀ l sid, socketid (deref s l) = Some sid →
           ∃ sock, sockets s !! sid = Some sock ∧ deviceObj sock = l.

(** A devices file as the server itself writes one from a consistent
    registry: no key and no device id occurs twice, and none is empty. *)
Definition file_ok (ds : list device) : Prop :=
  NoDup (key <$> ds) ∧ NoDup (deviceid <$> ds) ∧
  Forall (λ d, key d ≠ "" ∧ deviceid d ≠ "") ds.

Definition created_run : list event := [create1].

(** The request id [rid] was used by a call and has no resolver in the
    table any more. *)
Definition retired (rid : string) (s : state) : Prop :=
  rid ∈ requestId <$> calls s ∧ pendingRequests s !! rid = None.

(** Call [c] was answered by a reply, and its resolver is still in the
    table. *)
Definition leaked (c : nat) (rid : string) (s : state) : Prop :=
  calls s !! c = Some (Call rid Cleared Resolved) ∧
  pendingRequests s !! rid = Some c.

(** A hand-edited devices file in which one key occurs twice and one
    record has no device id. *)
Definition edited_file : list device :=
  [Device "01" "dup" "dev_a" None None;
   Device "02" "solo" "" None None;
   Device "03" "dup" "dev_b" None None].

(** * Proofs *)

(** ** Reading and writing through references *)

Lemma present_Some f v : present f = Some v → f = Some v ∧ v ≠ "".
Proof.
  destruct f as [w|]; simpl; [|done].
  unfold truthy. destruct (String.eqb_spec w ""); simpl; [done|].
  by intros [= ->].
Qed.

Lemma present_Some_2 v : v ≠ "" → present (Some v) = Some v.
Proof.
  intros Hv. simpl. unfold truthy.
  by destruct (String.eqb_spec v "").
Qed.

Lemma truthy_true v : truthy v = true ↔ v ≠ "".
Proof. unfold truthy. by destruct (String.eqb_spec v ""). Qed.

Lemma generateDeviceId_truthy hex : generateDeviceId hex ≠ "".
Proof. done. Qed.

Lemma deref_write_eq l v s :
  (l < length (objs s))%nat →
  deref (write_socketid l v s) l = set_socketid v (deref s l).
Proof.
  intros Hl. unfold deref. simpl.
  by rewrite list_lookup_total_alter_eq.
Qed.

Lemma deref_write_ne l l' v s :
  l ≠ l' → deref (write_socketid l v s) l' = deref s l'.
Proof. intros Hl. unfold deref. simpl. by rewrite list_lookup_total_alter_ne. Qed.

Lemma deref_write_fields l l' v s :
  set_socketid None (deref (write_socketid l v s) l') = set_socketid None (deref s l').
Proof.
  unfold deref. simpl. rewrite !list_lookup_total_alt, list_lookup_alter.
  case_decide; [subst|done]. by destruct (objs s !! l') as [[]|].
Qed.

Lemma deref_write_socketid_ge l v s :
  (length (objs s) ≤ l)%nat → write_socketid l v s = s.
Proof.
  intros Hl. destruct s as [o ? ? ? ? ? ? ?]. unfold write_socketid. simpl in *.
  f_equal. apply list_eq. intros j. rewrite list_lookup_alter.
  case_decide; [subst|done].
  by rewrite (lookup_ge_None_2 o j).
Qed.

Lemma set_socketid_None_fields d d' :
  set_socketid None d = set_socketid None d' →
  id d = id d' ∧ key d = key d' ∧ deviceid d = deviceid d' ∧ expDate d = expDate d'.
Proof. destruct d, d'. unfold set_socketid. simpl. by intros [= -> -> -> ->]. Qed.

(** ** Handlers that leave the registry alone *)

Lemma same_registry_refl s : same_registry s s.
Proof. by split. Qed.

Lemma same_registry_trans s1 s2 s3 :
  same_registry s1 s2 → same_registry s2 s3 → same_registry s1 s3.
Proof.
  intros [] []. split; congruence.
Qed.

Lemma same_registry_write l v s : same_registry s (write_socketid l v s).
Proof.
  split; try done.
  - simpl. apply length_alter.
  - intros l'. apply deref_write_fields.
Qed.

Lemma same_registry_disconnect sid s : same_registry s (disconnect sid s).
Proof.
  unfold disconnect. destruct (sockets s !! sid) as [sock|]; [|apply same_registry_refl].
  unfold on_disconnect.
  destruct (same_registry_write (deviceObj sock) None (set_sockets (delete sid (sockets s)) s)).
  by split.
Qed.

Lemma same_registry_clear s : same_registry s (clear_socketids s).
Proof.
  unfold clear_socketids. generalize (devices s) as ls. intros ls.
  revert s. induction ls as [|l ls IH]; intros s; simpl.
  - apply same_registry_refl.
  - eapply same_registry_trans; [apply (same_registry_write l None)|apply IH].
Qed.

Lemma same_registry_store_ok s s' : same_registry s s' → store_ok s → store_ok s'.
Proof.
  intros [Hd Hk Hi Hlen Hf] [].
  assert (Hkey : ∀ l, key (deref s' l) = key (deref s l)).
  { intros l. by destruct (set_socketid_None_fields _ _ (Hf l)) as (_ & ? & _). }
  assert (Hdid : ∀ l, deviceid (deref s' l) = deviceid (deref s l)).
  { intros l. by destruct (set_socketid_None_fields _ _ (Hf l)) as (_ & _ & ? & _). }
  split; rewrite ?Hd, ?Hk, ?Hi, ?Hlen; try done.
  - intros l. rewrite Hkey. auto.
  - intros l. rewrite Hdid. auto.
  - intros k l. rewrite Hkey. auto.
  - intros i l. rewrite Hdid. auto.
Qed.

(** ** Creating a device *)

Lemma findIndex_Some {A} (p : A → bool) l i :
  findIndex p l = Some i →
  ∃ x, l !! i = Some x ∧ p x = true ∧
       ∀ j y, (j < i)%nat → l !! j = Some y → p y = false.
Proof.
  revert i. induction l as [|x l IH]; intros i; simpl; [done|].
  destruct (p x) eqn:Hp.
  - intros [= <-]. exists x. split_and!; [done..|]. intros; lia.
  - destruct (findIndex p l) as [i'|]; simpl; [|done].
    intros [= <-]. destruct (IH i' eq_refl) as (y & Hy & Hpy & Hlt).
    exists y. split_and!; [done..|].
    intros [|j] z Hj; simpl; [by intros [= <-]|].
    apply Hlt. lia.
Qed.

Lemma findIndex_None {A} (p : A → bool) l x :
  findIndex p l = None → x ∈ l → p x = false.
Proof.
  induction l as [|y l IH]; simpl; [by intros _ ?%elem_of_nil|].
  destruct (p y) eqn:Hp; [done|].
  destruct (findIndex p l); simpl; [done|].
  intros _ [->|?]%elem_of_cons; auto.
Qed.

Lemma deref_app_l s d l o1 o2 o3 o4 o5 o6 o7 :
  (l < length (objs s))%nat →
  deref (State (objs s ++ [d]) o1 o2 o3 o4 o5 o6 o7) l = deref s l.
Proof. intros Hl. unfold deref. simpl. by rewrite lookup_total_app_l. Qed.

Lemma deref_app_new s d o1 o2 o3 o4 o5 o6 o7 :
  deref (State (objs s ++ [d]) o1 o2 o3 o4 o5 o6 o7) (length (objs s)) = d.
Proof. unfold deref. simpl. by rewrite list_lookup_total_middle. Qed.

Lemma post_device_store_ok k exp rnd_id rnd_dev s :
  store_ok s → fresh s (PostDevice k exp rnd_id rnd_dev) = true →
  store_ok (post_device k exp rnd_id rnd_dev s).1.
Proof.
  intros Hok Hfresh. simpl in Hfresh. apply bool_decide_eq_true in Hfresh.
  unfold post_device.
  destruct (present k) as [k'|] eqn:Hk; [|done].
  apply present_Some in Hk as [_ Hk'].
  destruct (deviceByKey s !! k') as [?|] eqn:Hlook; [done|]. simpl.
  destruct Hok as [Hnd Hb Hbk Hbi Hko Hio].
  assert (Hnew : length (objs s) ∉ devices s).
  { intros Hin%Hb. lia. }
  split; simpl.
  - apply NoDup_app. split_and!; [done| |apply NoDup_singleton].
    intros l Hl ->%list_elem_of_singleton. done.
  - intros l [Hl| ->%list_elem_of_singleton]%elem_of_app; rewrite length_app; simpl.
    + apply Hb in Hl. lia.
    + lia.
  - intros l [Hl| ->%list_elem_of_singleton]%elem_of_app.
    + rewrite deref_app_l by auto.
      rewrite lookup_insert_ne; [auto|].
      intros ->. rewrite (Hbk l Hl) in Hlook. done.
    + rewrite deref_app_new. simpl. apply lookup_insert_eq.
  - intros l [Hl| ->%list_elem_of_singleton]%elem_of_app.
    + rewrite deref_app_l by auto.
      rewrite lookup_insert_ne; [auto|].
      intros Heq. rewrite Heq, (Hbi l Hl) in Hfresh. done.
    + rewrite deref_app_new. simpl. apply lookup_insert_eq.
  - intros k0 l. rewrite lookup_insert. case_decide as Hc.
    + subst k0. intros [= <-]. rewrite deref_app_new.
      split_and!; [|done|done]. apply elem_of_app. right. by apply list_elem_of_singleton.
    + intros Hl. destruct (Hko _ _ Hl) as (Hin & Hkey & Hne).
      rewrite deref_app_l by auto. split_and!; [|done|done]. apply elem_of_app. by left.
  - intros i l. rewrite lookup_insert. case_decide as Hc.
    + subst i. intros [= <-]. rewrite deref_app_new.
      split_and!; [|done|done]. apply elem_of_app. right. by apply list_elem_of_singleton.
    + intros Hl. destruct (Hio _ _ Hl) as (Hin & Hkey & Hne).
      rewrite deref_app_l by auto. split_and!; [|done|done]. apply elem_of_app. by left.
Qed.

(** ** Deleting a device *)

Lemma elem_of_delete_NoDup {A} (l : list A) i x y :
  NoDup l → l !! i = Some x → y ∈ delete i l ↔ y ∈ l ∧ y ≠ x.
Proof.
  intros Hnd Hi. rewrite delete_take_drop.
  rewrite <-(take_drop_middle l i x Hi) in Hnd at 1.
  rewrite <-(take_drop_middle l i x Hi) at 3.
  apply NoDup_app in Hnd as (_ & Hdisj & [Hx _]%NoDup_cons).
  rewrite !elem_of_app, elem_of_cons. split.
  - intros [Hy|Hy].
    + split; [by left|]. intros ->. apply (Hdisj x Hy). by left.
    + split; [by right; right|]. by intros ->.
  - intros [[Hy|[->|Hy]] Hne]; [by left|done|by right].
Qed.

Lemma findIndex_by_key s k l :
  store_ok s → deviceByKey s !! k = Some l →
  ∃ i, findIndex (λ l', String.eqb (key (deref s l')) k) (devices s) = Some i ∧
       devices s !! i = Some l.
Proof.
  intros Hok Hl. destruct (ok_key_only s Hok k l Hl) as (Hin & Hkey & _).
  destruct (findIndex _ (devices s)) as [i|] eqn:Hfind.
  - exists i. split; [done|].
    apply findIndex_Some in Hfind as (x & Hx & Hp & _).
    apply String.eqb_eq in Hp.
    pose proof (ok_by_key s Hok x (list_elem_of_lookup_2 _ _ _ Hx)) as Hbk.
    rewrite Hp, Hl in Hbk. by injection Hbk as ->.
  - pose proof (findIndex_None _ _ l Hfind Hin) as Hp. simpl in Hp.
    rewrite Hkey, String.eqb_refl in Hp. done.
Qed.

(** What [delete_remove] does to a consistent registry: exactly the record
    [l] found under [k] leaves the array and the two indices. *)
Lemma delete_remove_spec s k l :
  store_ok s → deviceByKey s !! k = Some l →
  let s' := delete_remove k l s in
  objs s' = objs s ∧
  (∀ l', l' ∈ devices s' ↔ l' ∈ devices s ∧ l' ≠ l) ∧
  NoDup (devices s') ∧
  deviceByKey s' = delete k (deviceByKey s) ∧
  deviceByDeviceId s' = delete (deviceid (deref s l)) (deviceByDeviceId s) ∧
  cacheDirty s' = true.
Proof.
  intros Hok Hl.
  destruct (findIndex_by_key s k l Hok Hl) as (i & Hfind & Hi).
  destruct (ok_key_only s Hok k l Hl) as (Hin & Hkey & _).
  pose proof (ok_by_id s Hok l Hin) as Hid.
  destruct (ok_id_only s Hok _ _ Hid) as (_ & _ & Hne).
  unfold delete_remove. simpl. rewrite Hfind. simpl.
  apply truthy_true in Hne. rewrite Hne.
  split_and!; try done.
  - intros l'. apply elem_of_delete_NoDup; [apply Hok|done].
  - eapply sublist_NoDup; [apply Hok|apply sublist_delete].
Qed.

Lemma delete_remove_store_ok s k l :
  store_ok s → deviceByKey s !! k = Some l → store_ok (delete_remove k l s).
Proof.
  intros Hok Hl.
  destruct (delete_remove_spec s k l Hok Hl) as (Ho & Hmem & Hnd & Hbk & Hbi & _).
  destruct (ok_key_only s Hok k l Hl) as (Hin & Hkey & _).
  assert (Hderef : ∀ l', deref (delete_remove k l s) l' = deref s l').
  { intros l'. unfold deref. by rewrite Ho. }
  split; rewrite ?Hbk, ?Hbi, ?Ho; try done.
  - intros l' [Hl' _]%Hmem. by apply Hok.
  - intros l' [Hl' Hne]%Hmem. rewrite Hderef.
    rewrite lookup_delete_ne; [by apply Hok|].
    intros Heq. apply Hne.
    pose proof (ok_by_key s Hok l' Hl') as Hbk'. rewrite <-Heq, Hl in Hbk'.
    by injection Hbk'.
  - intros l' [Hl' Hne]%Hmem. rewrite Hderef.
    rewrite lookup_delete_ne; [by apply Hok|].
    intros Heq. apply Hne.
    pose proof (ok_by_id s Hok l' Hl') as Hbi'.
    rewrite <-Heq, (ok_by_id s Hok l Hin) in Hbi'. by injection Hbi'.
  - intros k0 l'. rewrite lookup_delete. case_decide as Hc; [done|].
    intros Hl'. destruct (ok_key_only s Hok _ _ Hl') as (Hin' & Hkey' & Hne').
    rewrite Hderef. split_and!; [|done|done].
    apply Hmem. split; [done|]. intros ->. congruence.
  - intros i l'. rewrite lookup_delete. case_decide as Hc; [done|].
    intros Hl'. destruct (ok_id_only s Hok _ _ Hl') as (Hin' & Hid' & Hne').
    rewrite Hderef. split_and!; [|done|done].
    apply Hmem. split; [done|]. intros ->. congruence.
Qed.

Lemma delete_notify_same l s : same_registry s (delete_notify l s).1.
Proof.
  unfold delete_notify. destruct (present _); simpl.
  - apply same_registry_disconnect.
  - apply same_registry_refl.
Qed.

Lemma delete_device_store_ok k s : store_ok s → store_ok (delete_device k s).1.
Proof.
  intros Hok. unfold delete_device.
  destruct (deviceByKey s !! k) as [l|] eqn:Hl; [|done].
  pose proof (delete_notify_same l s) as Hsame.
  destruct (delete_notify l s) as [s1 out]. simpl in *.
  apply delete_remove_store_ok.
  - by eapply same_registry_store_ok.
  - by rewrite (same_by_key _ _ Hsame).
Qed.

(** ** The invariants along a run *)

Lemma same_registry_eq s s' :
  objs s' = objs s → devices s' = devices s →
  deviceByKey s' = deviceByKey s → deviceByDeviceId s' = deviceByDeviceId s →
  same_registry s s'.
Proof. intros Ho ? ? ?. split; try done; unfold deref; by rewrite Ho. Qed.

Lemma resolver_frame c r s :
  let s' := (resolver c r s).1 in
  objs s' = objs s ∧ devices s' = devices s ∧ deviceByKey s' = deviceByKey s ∧
  deviceByDeviceId s' = deviceByDeviceId s ∧ cacheDirty s' = cacheDirty s ∧
  sockets s' = sockets s ∧ pendingRequests s' = pendingRequests s.
Proof.
  unfold resolver. destruct (calls s !! c) as [cl|]; [|done].
  by destruct (promise cl).
Qed.

Lemma timeout_callback_frame c s :
  let s' := (timeout_callback c s).1 in
  objs s' = objs s ∧ devices s' = devices s ∧ deviceByKey s' = deviceByKey s ∧
  deviceByDeviceId s' = deviceByDeviceId s ∧ cacheDirty s' = cacheDirty s ∧
  sockets s' = sockets s.
Proof.
  unfold timeout_callback. destruct (calls s !! c) as [cl|]; [|done].
  destruct (timeout cl); [|done..]. by destruct (promise cl).
Qed.

Lemma post_send_frame did dest text now rnd s :
  let s' := (post_send did dest text now rnd s).1 in
  objs s' = objs s ∧ devices s' = devices s ∧ deviceByKey s' = deviceByKey s ∧
  deviceByDeviceId s' = deviceByDeviceId s ∧ cacheDirty s' = cacheDirty s ∧
  sockets s' = sockets s.
Proof.
  unfold post_send.
  destruct (present did), (present dest), (present text); try done.
  destruct (deviceByDeviceId s !! _); [|done].
  by destruct (present (socketid _)).
Qed.

Lemma on_sms_response_frame r s :
  let s' := (on_sms_response r s).1 in
  objs s' = objs s ∧ devices s' = devices s ∧ deviceByKey s' = deviceByKey s ∧
  deviceByDeviceId s' = deviceByDeviceId s ∧ cacheDirty s' = cacheDirty s ∧
  sockets s' = sockets s ∧ pendingRequests s' = pendingRequests s.
Proof.
  unfold on_sms_response. destruct r as [r|]; [|done].
  destruct (resp_requestId r); try done.
  destruct (pendingRequests s !! _); [|done]. apply resolver_frame.
Qed.

Lemma connect_same sid auth now s : same_registry s (connect sid auth now s).1.
Proof.
  unfold connect. destruct (auth_middleware auth s) as [msg|[did l]]; simpl.
  - apply same_registry_refl.
  - destruct (same_registry_write l (Some sid) s). by split.
Qed.

Lemma saveDevices_same wok s : same_registry s (saveDevices wok s).1.
Proof.
  unfold saveDevices. destruct (cacheDirty s), wok; simpl;
    by apply same_registry_eq.
Qed.

Lemma on_sigint_same wok s : same_registry s (on_sigint wok s).1.
Proof.
  unfold on_sigint.
  pose proof (saveDevices_same wok (clear_socketids s)) as H.
  destruct (saveDevices wok (clear_socketids s)) as [s1 out]. simpl in *.
  eapply same_registry_trans; [apply same_registry_clear|done].
Qed.

Lemma heartbeat_check_same sid now s : same_registry s (heartbeat_check sid now s).
Proof.
  unfold heartbeat_check. destruct (sockets s !! sid) as [sock|];
    [|apply same_registry_refl].
  destruct (_ <? _)%Z; [apply same_registry_disconnect|apply same_registry_refl].
Qed.

Lemma step_store_ok s e : store_ok s → fresh s e = true → store_ok (step s e).1.
Proof.
  intros Hok Hfresh. destruct e; simpl.
  - by apply post_device_store_ok.
  - by apply delete_device_store_ok.
  - unfold post_register. destruct (present k); [|done].
    destruct (deviceByKey s !! _); [|done]. by destruct (isKeyValid _ _).
  - eapply same_registry_store_ok; [|done].
    destruct (post_send_frame deviceId destNumber textMessage now rnd s)
      as (? & ? & ? & ? & _).
    by apply same_registry_eq.
  - eapply same_registry_store_ok; [apply connect_same|done].
  - destruct (sockets s !! sid); [|done].
    eapply same_registry_store_ok; [|done].
    destruct (on_sms_response_frame r s) as (? & ? & ? & ? & _).
    by apply same_registry_eq.
  - eapply same_registry_store_ok; [|done].
    unfold on_heartbeat. destruct (sockets s !! sid); by apply same_registry_eq.
  - eapply same_registry_store_ok; [apply heartbeat_check_same|done].
  - eapply same_registry_store_ok; [apply same_registry_disconnect|done].
  - eapply same_registry_store_ok; [|done].
    destruct (timeout_callback_frame c s) as (? & ? & ? & ? & _).
    by apply same_registry_eq.
  - eapply same_registry_store_ok; [apply saveDevices_same|done].
  - eapply same_registry_store_ok; [apply on_sigint_same|done].
Qed.

Lemma broker_ok_eq s s' :
  calls s' = calls s → pendingRequests s' = pendingRequests s →
  broker_ok s → broker_ok s'.
Proof. intros Hc Hp []. split; by rewrite ?Hc, ?Hp. Qed.

Lemma disconnect_broker sid s :
  calls (disconnect sid s) = calls s ∧
  pendingRequests (disconnect sid s) = pendingRequests s.
Proof. unfold disconnect. by destruct (sockets s !! sid). Qed.

Lemma clear_socketids_broker s :
  calls (clear_socketids s) = calls s ∧
  pendingRequests (clear_socketids s) = pendingRequests s.
Proof.
  unfold clear_socketids. generalize (devices s) as ls. intros ls.
  revert s. induction ls as [|l ls IH]; intros s; simpl; [done|].
  destruct (IH (write_socketid l None s)) as [-> ->]. done.
Qed.

Lemma set_call_rids c t p cl cs :
  cs !! c = Some cl → requestId <$> set_call c t p cl cs = requestId <$> cs.
Proof.
  intros Hc. unfold set_call. rewrite list_fmap_insert. simpl.
  apply list_insert_id. by rewrite list_lookup_fmap, Hc.
Qed.

Lemma resolver_broker_ok c r s : broker_ok s → broker_ok (resolver c r s).1.
Proof.
  intros [Hnd Hp]. unfold resolver.
  destruct (calls s !! c) as [cl|] eqn:Hc; [|done].
  destruct (promise cl); simpl; split; simpl;
    by rewrite set_call_rids.
Qed.

Lemma timeout_callback_broker_ok c s :
  broker_ok s → broker_ok (timeout_callback c s).1.
Proof.
  intros [Hnd Hp]. unfold timeout_callback.
  destruct (calls s !! c) as [cl|] eqn:Hc; [|done].
  destruct (timeout cl); [|done..].
  destruct (promise cl); simpl; split; simpl; rewrite set_call_rids by done;
    try done; intros rid c' Hl; apply Hp;
    repeat (apply lookup_delete_Some in Hl as [_ Hl]); done.
Qed.

Lemma post_send_broker_ok did dest text now rnd s :
  broker_ok s → fresh s (PostSend did dest text now rnd) = true →
  broker_ok (post_send did dest text now rnd s).1.
Proof.
  intros [Hnd Hp] Hfresh. simpl in Hfresh. apply bool_decide_eq_true in Hfresh.
  unfold post_send.
  destruct (present did) as [d|] eqn:Hd; [|done].
  apply present_Some in Hd as [-> _]. simpl in Hfresh.
  destruct (present dest), (present text); try done.
  destruct (deviceByDeviceId s !! d); [|done].
  destruct (present (socketid _)); [|done]. simpl.
  split; simpl; rewrite fmap_app; simpl.
  - apply NoDup_app. split_and!; [done| |apply NoDup_singleton].
    intros x Hx ->%list_elem_of_singleton. done.
  - intros rid c. rewrite lookup_insert. case_decide as Hc.
    + intros [= <-]. subst rid.
      rewrite <-(length_fmap requestId). by rewrite list_lookup_middle.
    + intros Hl%Hp. rewrite lookup_app_l; [done|].
      by eapply lookup_lt_Some.
Qed.

Lemma step_broker_ok s e : broker_ok s → fresh s e = true → broker_ok (step s e).1.
Proof.
  intros Hok Hfresh. destruct e; simpl.
  - unfold post_device. destruct (present k); [|done].
    destruct (deviceByKey s !! _); [done|]. by apply (broker_ok_eq s).
  - unfold delete_device. destruct (deviceByKey s !! k) as [l|]; [|done].
    unfold delete_notify. destruct (present _) as [sid|]; simpl.
    + destruct (disconnect_broker sid s). by apply (broker_ok_eq s).
    + by apply (broker_ok_eq s).
  - unfold post_register. destruct (present k); [|done].
    destruct (deviceByKey s !! _); [|done]. by destruct (isKeyValid _ _).
  - by apply post_send_broker_ok.
  - unfold connect. destruct (auth_middleware auth s) as [msg|[did l]]; [done|].
    by apply (broker_ok_eq s).
  - destruct (sockets s !! sid); [|done].
    unfold on_sms_response. destruct r as [r|]; [|done].
    destruct (resp_requestId r); try done.
    destruct (pendingRequests s !! _); [|done]. by apply resolver_broker_ok.
  - unfold on_heartbeat. destruct (sockets s !! sid); by apply (broker_ok_eq s).
  - unfold heartbeat_check. destruct (sockets s !! sid); [|done].
    destruct (_ <? _)%Z; [|done].
    destruct (disconnect_broker sid s). by apply (broker_ok_eq s).
  - destruct (disconnect_broker sid s). by apply (broker_ok_eq s).
  - by apply timeout_callback_broker_ok.
  - unfold saveDevices. destruct (cacheDirty s), wok; simpl; by apply (broker_ok_eq s).
  - unfold on_sigint, saveDevices.
    destruct (clear_socketids_broker s).
    destruct (cacheDirty (clear_socketids s)), wok; simpl; by apply (broker_ok_eq s).
Qed.

Lemma wf_init : wf init.
Proof.
  split; split; simpl; try done; try apply NoDup_nil_2;
    try (by intros ? ?%elem_of_nil).
Qed.

Lemma wf_step s e : wf s → fresh s e = true → wf (step s e).1.
Proof. intros [] ?. split; [by apply step_store_ok|by apply step_broker_ok]. Qed.

Lemma run_cons s e es :
  run s (e :: es) = ((run (step s e).1 es).1, (step s e).2 ++ (run (step s e).1 es).2).
Proof. simpl. destruct (step s e) as [s1 o1]. simpl. by destruct (run s1 es). Qed.

Lemma wf_run s es : wf s → fresh_trace s es = true → wf (run s es).1.
Proof.
  revert s. induction es as [|e es IH]; intros s Hwf Hfresh; [done|].
  simpl in Hfresh. apply andb_true_iff in Hfresh as [He Hes].
  rewrite run_cons. simpl. apply IH; [by apply wf_step|done].
Qed.

(** ** The registry stays consistent *)

Lemma store_ok_consistent s : store_ok s → consistent s.
Proof.
  intros Hok. split_and!.
  - apply Hok.
  - intros l. split.
    + intros Hl. split; by apply Hok.
    + intros [Hk _]. by apply (ok_key_only s Hok) in Hk as (? & _).
  - intros k l Hl. apply (ok_key_only s Hok) in Hl as (? & ? & _). done.
  - intros i l Hl. apply (ok_id_only s Hok) in Hl as (? & ? & _). done.
  - intros l1 l2 H1 H2 Heq.
    pose proof (ok_by_key s Hok l1 H1) as E1.
    pose proof (ok_by_key s Hok l2 H2) as E2. congruence.
  - intros l1 l2 H1 H2 Heq.
    pose proof (ok_by_id s Hok l1 H1) as E1.
    pose proof (ok_by_id s Hok l2 H2) as E2. congruence.
Qed.

(** C9.  From the empty store, after any sequence of requests and socket
    events (the create and delete operations among them) whose random
    device ids do not repeat one that is registered, the array and the two
    indices hold the same records: a record is in the array exactly when the
    by-key index holds it under its key and the by-device-id index under its
    device id, the indices hold nothing else, and keys and device ids are
    unique among the registered records. *)
Theorem registry_consistent (es : list event) :
  fresh_trace init es = true → consistent (run init es).1.
Proof.
  intros Hfresh. apply store_ok_consistent.
  by apply (wf_run init es wf_init).
Qed.

Lemma registry_consistent_witness :
  fresh_trace init registry_run = true ∧ consistent (run init registry_run).1.
Proof.
  assert (H : fresh_trace init registry_run = true) by (vm_compute; reflexivity).
  split; [exact H|exact (registry_consistent registry_run H)].
Defined.

(** ** Creating and deleting *)

(** C5, as amended.  A create call without a key, or with an empty one,
    answers 400 and changes nothing; one whose key is registered answers
    409 and changes nothing; any other call appends one new record, with
    the drawn id and device id, the given key and expiry and no connection,
    to the array, enters it in both indices, leaves every other record as
    it was, sets the dirty flag and answers 201 with the id and device id. *)
Theorem post_device_spec s k exp rnd_id rnd_dev :
  store_ok s →
  match present k with
  | None =>
    post_device k exp rnd_id rnd_dev s =
      (s, [Respond 400 (ErrorBody "Key is required")])
  | Some k' =>
    match deviceByKey s !! k' with
    | Some _ =>
      post_device k exp rnd_id rnd_dev s =
        (s, [Respond 409 (ErrorBody "Key already exists")])
    | None =>
      let s' := (post_device k exp rnd_id rnd_dev s).1 in
      let l := length (objs s) in
      ((l ∉ devices s) ∧
       devices s' = devices s ++ [l] ∧
       deref s' l = Device rnd_id k' ("dev_" +:+ rnd_dev) exp None ∧
       deviceByKey s' = <[k' := l]> (deviceByKey s) ∧
       deviceByDeviceId s' = <["dev_" +:+ rnd_dev := l]> (deviceByDeviceId s) ∧
       (∀ l', l' ∈ devices s → deref s' l' = deref s l') ∧
       cacheDirty s' = true ∧
       pendingRequests s' = pendingRequests s ∧ sockets s' = sockets s ∧
       (post_device k exp rnd_id rnd_dev s).2 =
         [Respond 201 (CreatedBody "Device key created successfully"
                                   rnd_id ("dev_" +:+ rnd_dev))])
    end
  end.
Proof.
  intros Hok. unfold post_device.
  destruct (present k) as [k'|]; [|done].
  destruct (deviceByKey s !! k'); [done|]. simpl.
  split_and!; try done.
  - intros Hin%(ok_bound s Hok). lia.
  - apply deref_app_new.
  - intros l' Hl'. apply deref_app_l. by apply Hok.
Qed.

Lemma post_device_spec_witness :
  store_ok init ∧
  deviceByKey (step init create1).1 !! "abc123" = Some 0%nat ∧
  cacheDirty (step init create1).1 = true.
Proof.
  assert (H : store_ok init) by apply wf_init.
  split; [exact H|].
  pose proof (post_device_spec init (Some "abc123") None "0011223344556677"
                "aabbccddeeff001122334455" H) as Hs.
  destruct Hs as (_ & _ & _ & Hk & _ & _ & Hd & _).
  split; [|exact Hd].
  change (step init create1).1 with
    (post_device (Some "abc123") None "0011223344556677"
                 "aabbccddeeff001122334455" init).1.
  rewrite Hk. apply lookup_insert_eq.
Defined.

Lemma disconnect_sockets sid s : sockets (disconnect sid s) !! sid = None.
Proof.
  unfold disconnect. destruct (sockets s !! sid) eqn:Hs; [|done].
  simpl. apply lookup_delete_eq.
Qed.

(** C6.  In a consistent registry, a delete call for an unknown key
    answers 404 and changes nothing.  For a registered key the handler first
    notifies: if the record has a connection bound, exactly one
    [force_disconnect] with the deletion reason goes to that connection and
    the connection is severed, and at that point the record is still in the
    array and in both indices.  Then it removes: exactly this record leaves
    the array, its key leaves the by-key index and its device id the
    by-device-id index, the dirty flag is set and the answer is 200. *)
Theorem delete_device_spec s k :
  store_ok s →
  match deviceByKey s !! k with
  | None =>
    delete_device k s = (s, [Respond 404 (ErrorBody "Device key not found")])
  | Some l =>
    let s1 := (delete_notify l s).1 in
    let s' := (delete_device k s).1 in
    let did := deviceid (deref s l) in
    ((delete_notify l s).2 =
       match present (socketid (deref s l)) with
       | Some sid => [Emit sid (ForceDisconnect "Device key was deleted")]
       | None => []
       end) ∧
    (l ∈ devices s1 ∧ deviceByKey s1 !! k = Some l ∧
     deviceByDeviceId s1 !! did = Some l) ∧
    (∀ sid, present (socketid (deref s l)) = Some sid → sockets s' !! sid = None) ∧
    s' = delete_remove k l s1 ∧
    (delete_device k s).2 =
      (delete_notify l s).2 ++
      [Respond 200 (MessageBody "Device key deleted successfully")] ∧
    (l ∉ devices s') ∧
    (∀ l', l' ≠ l → l' ∈ devices s' ↔ l' ∈ devices s) ∧
    deviceByKey s' = delete k (deviceByKey s) ∧
    deviceByDeviceId s' = delete did (deviceByDeviceId s) ∧
    cacheDirty s' = true
  end.
Proof.
  intros Hok. unfold delete_device.
  destruct (deviceByKey s !! k) as [l|] eqn:Hl; [|done].
  pose proof (delete_notify_same l s) as Hsame.
  assert (Hsock : ∀ sid, present (socketid (deref s l)) = Some sid →
                         sockets (delete_notify l s).1 !! sid = None).
  { intros sid Hsid. unfold delete_notify. rewrite Hsid. simpl.
    apply disconnect_sockets. }
  assert (Hout : (delete_notify l s).2 =
                 match present (socketid (deref s l)) with
                 | Some sid => [Emit sid (ForceDisconnect "Device key was deleted")]
                 | None => []
                 end).
  { unfold delete_notify. by destruct (present _). }
  destruct (delete_notify l s) as [s1 out]. cbn [fst snd] in *.
  pose proof (same_registry_store_ok _ _ Hsame Hok) as Hok1.
  assert (Hl1 : deviceByKey s1 !! k = Some l) by by rewrite (same_by_key _ _ Hsame).
  destruct (delete_remove_spec s1 k l Hok1 Hl1) as (Ho & Hmem & Hnd & Hbk & Hbi & Hd).
  destruct (ok_key_only s1 Hok1 k l Hl1) as (Hin & _ & _).
  assert (Hdid : deviceid (deref s1 l) = deviceid (deref s l)).
  { by destruct (set_socketid_None_fields _ _ (same_fields _ _ Hsame l)) as (_ & _ & ? & _). }
  split_and!; try done.
  - rewrite <-Hdid. by apply Hok1.
  - intros [_ Hne]%Hmem. done.
  - intros l' Hne. rewrite Hmem, (same_devices _ _ Hsame). tauto.
  - by rewrite Hbk, (same_by_key _ _ Hsame).
  - by rewrite Hbi, Hdid, (same_by_id _ _ Hsame).
Qed.

Lemma delete_device_spec_witness :
  store_ok (run init bound_run).1 ∧
  (delete_device "abc123" (run init bound_run).1).2 =
    [Emit "s1" (ForceDisconnect "Device key was deleted");
     Respond 200 (MessageBody "Device key deleted successfully")].
Proof.
  assert (H : store_ok (run init bound_run).1).
  { apply (wf_run init bound_run wf_init). vm_compute. reflexivity. }
  split; [exact H|].
  pose proof (delete_device_spec (run init bound_run).1 "abc123" H) as Hs.
  assert (Hk : deviceByKey (run init bound_run).1 !! "abc123" = Some 0%nat)
    by (vm_compute; reflexivity).
  rewrite Hk in Hs. destruct Hs as (Hn & _ & _ & _ & Hout & _).
  rewrite Hout, Hn. vm_compute. reflexivity.
Defined.

(** ** Disconnecting *)

(** C2, as amended.  When a connected socket disconnects, the [socketid]
    of the device object it was bound to becomes null and the dirty flag is
    set, whatever that field held: the handler does not compare it with the
    socket's own id.  The socket leaves the connected set and every other
    socket stays in it. *)
Theorem disconnect_clears_binding s sid sock :
  sockets s !! sid = Some sock →
  let s' := (step s (Disconnect sid)).1 in
  socketid (deref s' (deviceObj sock)) = None ∧
  cacheDirty s' = true ∧
  sockets s' !! sid = None ∧
  (∀ sid', sid' ≠ sid → sockets s' !! sid' = sockets s !! sid') ∧
  (∀ l, l ≠ deviceObj sock → deref s' l = deref s l).
Proof.
  intros Hs. simpl. unfold disconnect. rewrite Hs. simpl.
  split_and!; try done.
  - unfold deref. simpl. rewrite list_lookup_total_alt, list_lookup_alter_eq.
    by destruct (objs s !! deviceObj sock).
  - apply lookup_delete_eq.
  - intros sid' Hne. by apply lookup_delete_ne.
  - intros l Hne. unfold deref. simpl. by rewrite list_lookup_total_alter_ne.
Qed.

Lemma disconnect_clears_binding_witness :
  sockets (run init (take 3 stale_run)).1 !! "s1" = Some (Socket dev1 0 1000) ∧
  socketid (deref (step (run init (take 3 stale_run)).1 (Disconnect "s1")).1 0) = None.
Proof.
  assert (H : sockets (run init (take 3 stale_run)).1 !! "s1"
              = Some (Socket dev1 0 1000)) by (vm_compute; reflexivity).
  split; [exact H|].
  destruct (disconnect_clears_binding _ _ _ H) as (Hc & _).
  exact Hc.
Defined.
(** The claim of C2 fails: the second connection is bound and still open
    when the first one disconnects, and the binding is erased. *)
Lemma stale_disconnect_erases_binding :
  socketid (deref (run init (take 3 stale_run)).1 0) = Some "s2" ∧
  socketid (deref (run init stale_run).1 0) = None ∧
  sockets (run init stale_run).1 !! "s2" = Some (Socket dev1 0 2000).
Proof. vm_compute. done. Qed.

(** The same for any device and any two sockets. *)
Lemma second_binding_erased s did l sid1 sid2 now1 now2 :
  store_ok s → deviceByDeviceId s !! did = Some l → sid1 ≠ sid2 →
  let s2 := (run s [Connect sid1 (Some did) now1; Connect sid2 (Some did) now2]).1 in
  let s3 := (step s2 (Disconnect sid1)).1 in
  socketid (deref s2 l) = Some sid2 ∧
  socketid (deref s3 l) = None ∧
  sockets s3 !! sid2 = Some (Socket did l now2).
Proof.
  intros Hok Hl Hne.
  destruct (ok_id_only s Hok did l Hl) as (Hin & _ & Hdid).
  pose proof (ok_bound s Hok l Hin) as Hb.
  simpl. unfold connect, auth_middleware. rewrite (present_Some_2 did Hdid), Hl.
  simpl. rewrite Hl. simpl.
  unfold disconnect. simpl.
  rewrite lookup_insert_ne, lookup_insert_eq by done. simpl.
  split_and!.
  - unfold deref. simpl. rewrite list_lookup_total_alter_eq; [done|].
    by rewrite length_alter.
  - unfold deref. simpl. rewrite list_lookup_total_alter_eq; [done|].
    by rewrite !length_alter.
  - rewrite lookup_delete_ne, lookup_insert_eq by done. done.
Qed.

(** ** What a flush writes *)

Lemma foldl_write_devices ls s :
  devices (foldl (λ s' l, write_socketid l None s') s ls) = devices s.
Proof. revert s. induction ls as [|l ls IH]; intros s; simpl; [done|]. by rewrite IH. Qed.

Lemma foldl_write_dirty ls s :
  cacheDirty (foldl (λ s' l, write_socketid l None s') s ls) = cacheDirty s.
Proof. revert s. induction ls as [|l ls IH]; intros s; simpl; [done|]. by rewrite IH. Qed.

Lemma set_socketid_idemp v w d : set_socketid v (set_socketid w d) = set_socketid v d.
Proof. by destruct d. Qed.

Lemma deref_write_None l l' s :
  deref (write_socketid l None s) l' =
  if decide (l = l') then set_socketid None (deref s l') else deref s l'.
Proof.
  unfold deref. simpl. rewrite !list_lookup_total_alt, list_lookup_alter.
  case_decide; [subst|done]. by destruct (objs s !! l').
Qed.

Lemma foldl_write_deref ls s l :
  deref (foldl (λ s' l, write_socketid l None s') s ls) l =
  if decide (l ∈ ls) then set_socketid None (deref s l) else deref s l.
Proof.
  revert s. induction ls as [|l0 ls IH]; intros s.
  - destruct (decide (l ∈ [])) as [Hin|_]; [|done]. by apply elem_of_nil in Hin.
  - cbn [foldl]. rewrite IH, deref_write_None.
    destruct (decide (l ∈ l0 :: ls)) as [Hin|Hin];
      destruct (decide (l ∈ ls)) as [Hin'|Hin'];
      destruct (decide (l0 = l)) as [->|Hne]; try done;
      try (by rewrite set_socketid_idemp);
      try (by apply elem_of_cons in Hin as [->|?]);
      try (by exfalso; apply Hin; right);
      try (by exfalso; apply Hin; left).
Qed.

Lemma snapshot_clear s : snapshot (clear_socketids s) = set_socketid None <$> snapshot s.
Proof.
  unfold snapshot, clear_socketids. rewrite foldl_write_devices.
  rewrite <-list_fmap_compose. apply list_fmap_ext.
  intros i l Hl. simpl. rewrite foldl_write_deref.
  by rewrite decide_True by by eapply list_elem_of_lookup_2.
Qed.

(** C3, as amended.  The only handlers that write the devices file are the
    shutdown handler and the periodic save.  The shutdown flush writes every
    record of the array with a null [socketid].  A periodic flush writes the
    records as they are in memory, [socketid] included. *)
Theorem flushed_document s e doc :
  WriteFile doc ∈ (step s e).2 →
  (∃ wok, e = Sigint wok ∧ doc = set_socketid None <$> snapshot s ∧
          Forall (λ d, socketid d = None) doc) ∨
  (∃ wok, e = SaveTick wok ∧ doc = snapshot s).
Proof.
  destruct e; simpl.
  - unfold post_device. destruct (present k); [|by intros ?%list_elem_of_singleton].
    destruct (deviceByKey s !! _); by intros ?%list_elem_of_singleton.
  - unfold delete_device. destruct (deviceByKey s !! k) as [l|];
      [|by intros ?%list_elem_of_singleton].
    unfold delete_notify. destruct (present _); simpl.
    + intros [?|?%list_elem_of_singleton]%elem_of_cons; done.
    + by intros ?%list_elem_of_singleton.
  - unfold post_register. destruct (present k); [|by intros ?%list_elem_of_singleton].
    destruct (deviceByKey s !! _); [|by intros ?%list_elem_of_singleton].
    destruct (isKeyValid _ _); by intros ?%list_elem_of_singleton.
  - unfold post_send.
    destruct (present deviceId), (present destNumber), (present textMessage);
      try by intros ?%list_elem_of_singleton.
    destruct (deviceByDeviceId s !! _); [|by intros ?%list_elem_of_singleton].
    destruct (present (socketid _)); [|by intros ?%list_elem_of_singleton].
    simpl. intros [?|[?|?%elem_of_nil]%elem_of_cons]%elem_of_cons; done.
  - unfold connect. destruct (auth_middleware auth s) as [?|[? ?]]; simpl;
      by intros ?%list_elem_of_singleton.
  - destruct (sockets s !! sid); [|by intros ?%elem_of_nil].
    unfold on_sms_response. destruct r as [r|]; [|by intros ?%list_elem_of_singleton].
    destruct (resp_requestId r); try by intros ?%elem_of_nil.
    destruct (pendingRequests s !! _) as [c|]; [|by intros ?%elem_of_nil].
    unfold resolver. destruct (calls s !! c) as [cl|]; [|by intros ?%elem_of_nil].
    destruct (promise cl); simpl;
      first [by intros ?%list_elem_of_singleton|by intros ?%elem_of_nil].
  - by intros ?%elem_of_nil.
  - by intros ?%elem_of_nil.
  - by intros ?%elem_of_nil.
  - unfold timeout_callback. destruct (calls s !! c) as [cl|]; [|by intros ?%elem_of_nil].
    destruct (timeout cl); try by intros ?%elem_of_nil.
    destruct (promise cl); simpl;
      first [by intros ?%list_elem_of_singleton|by intros ?%elem_of_nil].
  - unfold saveDevices. destruct (cacheDirty s); [|by intros ?%elem_of_nil].
    destruct wok; [|by intros ?%list_elem_of_singleton].
    intros [= ->]%list_elem_of_singleton. right. by exists true.
  - unfold on_sigint, saveDevices.
    destruct (cacheDirty (clear_socketids s)); [|by intros ?%list_elem_of_singleton].
    destruct wok; simpl.
    + intros [[= ->]|?%list_elem_of_singleton]%elem_of_cons; [|done].
      left. exists true. rewrite snapshot_clear. split_and!; [done..|].
      apply Forall_fmap, Forall_true. intros d. by destruct d.
    + intros [?|?%list_elem_of_singleton]%elem_of_cons; done.
Qed.

Lemma flushed_document_witness :
  WriteFile [Device "0011223344556677" "abc123" dev1 None None;
             Device "8899aabbccddeeff" "k2" dev2 (Some (Millis 5000)) None]
    ∈ (step (run init bound_run).1 (Sigint true)).2 ∧
  (∃ wok, Sigint true = Sigint wok).
Proof.
  assert (H : WriteFile [Device "0011223344556677" "abc123" dev1 None None;
                         Device "8899aabbccddeeff" "k2" dev2 (Some (Millis 5000)) None]
                ∈ (step (run init bound_run).1 (Sigint true)).2).
  { vm_compute. left. }
  split; [exact H|].
  destruct (flushed_document _ _ _ H) as [(wok & He & _)|(wok & He & _)].
  - by exists wok.
  - discriminate He.
Defined.

(** The claim of C3 fails: a periodic flush while a device is connected
    writes its record with the live socket id. *)
Lemma periodic_flush_writes_socketid :
  WriteFile [Device "0011223344556677" "abc123" dev1 None (Some "s1");
             Device "8899aabbccddeeff" "k2" dev2 (Some (Millis 5000)) None]
    ∈ (step (run init bound_run).1 (SaveTick true)).2.
Proof. vm_compute. left. Qed.

(** ** Startup *)

Lemma foldl_index_frame ls s :
  objs (foldl index_device s ls) = objs s ∧
  devices (foldl index_device s ls) = devices s.
Proof.
  revert s. induction ls as [|l ls IH]; intros s; simpl; [done|].
  by destruct (IH (index_device s l)) as [-> ->].
Qed.

Lemma startServer_Parsed ds wok :
  startServer (Parsed ds) wok =
    (Registry (foldl index_device
                 (State ds (seq 0 (length ds)) ∅ ∅ ∅ false ∅ [])
                 (seq 0 (length ds))),
     [Listen]).
Proof. reflexivity. Qed.

Lemma snapshot_loaded ds wok :
  ∃ s, startServer (Parsed ds) wok = (Registry s, [Listen]) ∧ snapshot s = ds.
Proof.
  eexists. split; [apply startServer_Parsed|].
  unfold snapshot, deref.
  destruct (foldl_index_frame (seq 0 (length ds))
    (State ds (seq 0 (length ds)) ∅ ∅ ∅ false ∅ [])) as [-> ->]. simpl.
  apply list_eq. intros i. rewrite list_lookup_fmap.
  destruct (decide (i < length ds)%nat) as [Hi|Hi].
  - rewrite lookup_seq_lt by done. simpl.
    by rewrite <-list_lookup_lookup_total_lt.
  - rewrite lookup_seq_ge by lia. simpl. symmetry. apply lookup_ge_None. lia.
Qed.

(** Entering the same references gives the same indices when the two
    stores agree on the records behind them. *)
Lemma foldl_index_agree ls s s' :
  deviceByKey s = deviceByKey s' → deviceByDeviceId s = deviceByDeviceId s' →
  (∀ l, l ∈ ls → deref s l = deref s' l) →
  deviceByKey (foldl index_device s ls) = deviceByKey (foldl index_device s' ls) ∧
  deviceByDeviceId (foldl index_device s ls) =
    deviceByDeviceId (foldl index_device s' ls).
Proof.
  revert s s'. induction ls as [|l ls IH]; intros s s' Hk Hi Hd; [done|].
  cbn [foldl]. apply IH.
  - unfold index_device. cbn [deviceByKey]. rewrite Hk, (Hd l); [done|by left].
  - unfold index_device. cbn [deviceByDeviceId]. rewrite Hi, (Hd l); [done|by left].
  - intros l' Hl'. apply (Hd l'). by right.
Qed.

Lemma startServer_ParsedWithNull ds rest wok :
  ∃ s s0,
    startServer (ParsedWithNull ds rest) wok =
      (Garbled (Elements ((Some <$> seq 0 (length ds)) ++
                          None :: place (length ds) rest)) s,
       [ConsoleError "Error loading devices:"; Listen]) ∧
    startServer (Parsed ds) wok = (Registry s0, [Listen]) ∧
    objs s = ds ++ records rest ∧ devices s = [] ∧
    deviceByKey s = deviceByKey s0 ∧ deviceByDeviceId s = deviceByDeviceId s0.
Proof.
  exists (foldl index_device (State (ds ++ records rest) [] ∅ ∅ ∅ false ∅ [])
                (seq 0 (length ds))),
         (foldl index_device (State ds (seq 0 (length ds)) ∅ ∅ ∅ false ∅ [])
                (seq 0 (length ds))).
  split_and!; [reflexivity|apply startServer_Parsed| | | |].
  - by destruct (foldl_index_frame (seq 0 (length ds))
      (State (ds ++ records rest) [] ∅ ∅ ∅ false ∅ [])) as [-> _].
  - by destruct (foldl_index_frame (seq 0 (length ds))
      (State (ds ++ records rest) [] ∅ ∅ ∅ false ∅ [])) as [_ ->].
  - apply foldl_index_agree; [done..|].
    intros l Hl%elem_of_seq. unfold deref. simpl.
    apply lookup_total_app_l. lia.
  - apply foldl_index_agree; [done..|].
    intros l Hl%elem_of_seq. unfold deref. simpl.
    apply lookup_total_app_l. lia.
Qed.

(** C7, as amended.  With no devices file the store stays empty, the file
    is created holding an empty array and the server listens; if that
    creation fails the process exits with status 1.  Every other failure
    while loading is logged with [console.error] and the server listens all
    the same.  After a failed read, or text that does not parse, the store
    is empty.  After a value that is not an array, [devices] holds that
    value and the indices are empty.  After an array with a [null] element,
    [devices] holds the whole array and the indices hold the records before
    the first [null], as if those alone had been loaded.  A file that holds
    an array of records is loaded as that array. *)
Theorem startServer_spec (code : string) (wok : bool) (ds : list device)
    (v : not_array) (rest : list (option device)) :
  startServer (ReadError "ENOENT") true = (Registry init, [WriteFile []; Listen]) ∧
  startServer (ReadError "ENOENT") false =
    (Registry init, [ConsoleError "Failed to start server:"; Exit 1]) ∧
  (code ≠ "ENOENT" →
   startServer (ReadError code) wok =
     (Registry init, [ConsoleError "Error loading devices:"; Listen])) ∧
  startServer Unparsable wok =
    (Registry init, [ConsoleError "Error loading devices:"; Listen]) ∧
  startServer (NotArray v) wok =
    (Garbled (Value v) init, [ConsoleError "Error loading devices:"; Listen]) ∧
  (∃ s s0,
     startServer (ParsedWithNull ds rest) wok =
       (Garbled (Elements ((Some <$> seq 0 (length ds)) ++
                           None :: place (length ds) rest)) s,
        [ConsoleError "Error loading devices:"; Listen]) ∧
     startServer (Parsed ds) wok = (Registry s0, [Listen]) ∧
     objs s = ds ++ records rest ∧
     deviceByKey s = deviceByKey s0 ∧ deviceByDeviceId s = deviceByDeviceId s0) ∧
  (∃ s, startServer (Parsed ds) wok = (Registry s, [Listen]) ∧ snapshot s = ds).
Proof.
  split_and!; try done.
  - intros Hne. unfold startServer, loadDevices.
    by destruct (String.eqb_spec code "ENOENT").
  - destruct (startServer_ParsedWithNull ds rest wok)
      as (s & s0 & H1 & H2 & Ho & _ & Hk & Hi).
    by exists s, s0.
  - apply snapshot_loaded.
Qed.

(** The two ways into the [catch] with [devices] already assigned: after
    [{}] the variable holds the object; after [[r1, null, r2]] it holds the
    three elements and only [r1] can be found. *)
Lemma garbled_startups :
  startServer (NotArray ObjectValue) true =
    (Garbled (Value ObjectValue) init,
     [ConsoleError "Error loading devices:"; Listen]) ∧
  ∃ s, startServer holed_file true =
         (Garbled (Elements [Some 0%nat; None; Some 1%nat]) s,
          [ConsoleError "Error loading devices:"; Listen]) ∧
       deviceByKey s !! "k1" = Some 0%nat ∧ deviceByKey s !! "k2" = None ∧
       deviceByDeviceId s !! "dev_a" = Some 0%nat ∧
       deviceByDeviceId s !! "dev_b" = None.
Proof.
  split; [reflexivity|].
  eexists. split; [reflexivity|]. split_and!; vm_compute; reflexivity.
Qed.

(** The claim of C7 fails: a devices file that does not parse leaves the
    server listening, with no exit, in the state an empty array would have
    given. *)
Lemma unparsable_file_swallowed :
  Listen ∈ (startServer Unparsable true).2 ∧
  (∀ c, Exit c ∉ (startServer Unparsable true).2) ∧
  (startServer Unparsable true).1 = (startServer (Parsed []) true).1.
Proof.
  split_and!.
  - vm_compute. right. left.
  - intros c. vm_compute.
    intros [?|[?|?%elem_of_nil]%elem_of_cons]%elem_of_cons; done.
  - done.
Qed.

(** ** Replies *)

(** C8.  A reply whose [requestId] has no entry in [pendingRequests] (a
    string that is not a key, or not a string at all) changes nothing and
    produces nothing: no response, no log line, no exception. *)
Theorem unknown_reply_dropped s sid r :
  (∀ rid, resp_requestId r = JStr rid → pendingRequests s !! rid = None) →
  step s (SmsResponse sid (Some r)) = (s, []).
Proof.
  intros Hr. simpl. destruct (sockets s !! sid); [|done].
  unfold on_sms_response. destruct (resp_requestId r) as [| | | |rid]; try done.
  by rewrite (Hr rid eq_refl).
Qed.

Lemma unknown_reply_dropped_witness :
  pendingRequests (run init sent_run).1 !! "dev_aabbccddeeff001122334455-1-zzz" = None ∧
  step (run init sent_run).1
       (SmsResponse "s1" (Some (Response (JStr "dev_aabbccddeeff001122334455-1-zzz")
                                         (JBool true) (JStr "sent"))))
  = ((run init sent_run).1, []).
Proof.
  assert (H : pendingRequests (run init sent_run).1
                !! "dev_aabbccddeeff001122334455-1-zzz" = None)
    by (vm_compute; reflexivity).
  split; [exact H|].
  apply unknown_reply_dropped. simpl. by intros rid [= <-].
Defined.

(** The reply path never touches the table. *)
Lemma sms_response_keeps_table s sid r :
  pendingRequests (step s (SmsResponse sid r)).1 = pendingRequests s.
Proof.
  simpl. destruct (sockets s !! sid); [|done].
  by destruct (on_sms_response_frame r s) as (_ & _ & _ & _ & _ & _ & ?).
Qed.

(** C1 at the failing input.  A command is sent, the device answers with
    the matching [requestId], the caller gets its 200, and the entry is
    still in [pendingRequests]; the timer that would have removed it is
    cleared, so nothing ever removes it.  A second copy of the reply finds
    the resolver again, and the settled promise ignores it. *)
Theorem pending_entry_survives_reply :
  let s := (run init reply_run).1 in
  pendingRequests (run init sent_run).1 !! rid1 = Some 0%nat ∧
  (step (run init sent_run).1 (SmsResponse "s1" (Some reply1))).2 =
    [RespondCall 0 200 (ProcessedBody "Message processed by device"
                                      (JBool true) (JStr "sent"))] ∧
  pendingRequests s !! rid1 = Some 0%nat ∧
  calls s !! 0%nat = Some (Call rid1 Cleared Resolved) ∧
  step s (TimeoutFires 0) = (s, []) ∧
  step s (SmsResponse "s1" (Some reply1)) = (s, []).
Proof. split_and!; vm_compute; reflexivity. Qed.

(** ** Expiry *)

Lemma only_register_answers_expired s e :
  expired_response ∈ (step s e).2 → ∃ k now, e = PostRegister k now.
Proof.
  unfold expired_response. destruct e; simpl; try by intros ?%elem_of_nil.
  - unfold post_device. destruct (present k); [|by intros ?%list_elem_of_singleton].
    destruct (deviceByKey s !! _); by intros ?%list_elem_of_singleton.
  - unfold delete_device. destruct (deviceByKey s !! k) as [l|];
      [|by intros ?%list_elem_of_singleton].
    unfold delete_notify. destruct (present _); simpl.
    + intros [?|?%list_elem_of_singleton]%elem_of_cons; done.
    + by intros ?%list_elem_of_singleton.
  - eauto.
  - unfold post_send.
    destruct (present deviceId), (present destNumber), (present textMessage);
      try by intros ?%list_elem_of_singleton.
    destruct (deviceByDeviceId s !! _); [|by intros ?%list_elem_of_singleton].
    destruct (present (socketid _)); [|by intros ?%list_elem_of_singleton].
    simpl. intros [?|[?|?%elem_of_nil]%elem_of_cons]%elem_of_cons; done.
  - unfold connect. destruct (auth_middleware auth s) as [?|[? ?]]; simpl;
      by intros ?%list_elem_of_singleton.
  - destruct (sockets s !! sid); [|by intros ?%elem_of_nil].
    unfold on_sms_response. destruct r as [r|]; [|by intros ?%list_elem_of_singleton].
    destruct (resp_requestId r); try by intros ?%elem_of_nil.
    destruct (pendingRequests s !! _) as [c|]; [|by intros ?%elem_of_nil].
    unfold resolver. destruct (calls s !! c) as [cl|]; [|by intros ?%elem_of_nil].
    destruct (promise cl); simpl;
      first [by intros ?%list_elem_of_singleton|by intros ?%elem_of_nil].
  - unfold timeout_callback. destruct (calls s !! c) as [cl|]; [|by intros ?%elem_of_nil].
    destruct (timeout cl); try by intros ?%elem_of_nil.
    destruct (promise cl); simpl;
      first [by intros ?%list_elem_of_singleton|by intros ?%elem_of_nil].
  - unfold saveDevices. destruct (cacheDirty s); [|by intros ?%elem_of_nil].
    destruct wok; by intros ?%list_elem_of_singleton.
  - unfold on_sigint, saveDevices.
    destruct (cacheDirty (clear_socketids s)); [|by intros ?%list_elem_of_singleton].
    destruct wok; simpl; intros [?|?%list_elem_of_singleton]%elem_of_cons; done.
Qed.

(** C10.  Take a registered device whose key has expired at time [now].
    A socket that presents its device id passes the handshake and is bound
    to it; /send to its device id, when a connection is bound, registers the
    request and pushes [insert-sms] as for any device; /register with its
    key answers 400 "Key has expired".  No handler other than /register
    ever gives that answer. *)
Theorem expiry_only_at_register s l now :
  store_ok s → l ∈ devices s → isKeyValid (deref s l) now = false →
  let k := key (deref s l) in
  let did := deviceid (deref s l) in
  (∀ sid now',
     let s' := (step s (Connect sid (Some did) now')).1 in
     (step s (Connect sid (Some did) now')).2 =
       [Emit sid (Connected "Successfully connected to server" did)] ∧
     socketid (deref s' l) = Some sid ∧
     sockets s' !! sid = Some (Socket did l now')) ∧
  (∀ sid dest text now' rnd,
     present (socketid (deref s l)) = Some sid → dest ≠ "" → text ≠ "" →
     let rid := make_requestId did now' rnd in
     let s' := (step s (PostSend (Some did) (Some dest) (Some text) now' rnd)).1 in
     (step s (PostSend (Some did) (Some dest) (Some text) now' rnd)).2 =
       [SetTimeout (length (calls s)) 4500; Emit sid (InsertSms dest text rid)] ∧
     pendingRequests s' !! rid = Some (length (calls s)) ∧
     calls s' !! length (calls s) = Some (Call rid Armed Pending)) ∧
  step s (PostRegister (Some k) now) = (s, [expired_response]) ∧
  (∀ s0 e, expired_response ∈ (step s0 e).2 → ∃ k0 now0, e = PostRegister k0 now0).
Proof.
  intros Hok Hl Hexp k did.
  pose proof (ok_by_key s Hok l Hl) as Hbk.
  pose proof (ok_by_id s Hok l Hl) as Hbi.
  destruct (ok_key_only s Hok _ _ Hbk) as (_ & _ & Hk).
  destruct (ok_id_only s Hok _ _ Hbi) as (_ & _ & Hdid).
  pose proof (ok_bound s Hok l Hl) as Hb.
  fold k in Hbk, Hk. fold did in Hbi, Hdid.
  split_and!.
  - intros sid now'. simpl. unfold connect, auth_middleware.
    rewrite (present_Some_2 did Hdid), Hbi. simpl. split_and!; [done| |].
    + unfold deref. simpl. by rewrite list_lookup_total_alter_eq.
    + apply lookup_insert_eq.
  - intros sid dest text now' rnd Hsid Hdest Htext. simpl. unfold post_send.
    rewrite (present_Some_2 did Hdid), (present_Some_2 dest Hdest),
      (present_Some_2 text Htext), Hbi, Hsid. simpl.
    split_and!; [done| |].
    + apply lookup_insert_eq.
    + by rewrite list_lookup_middle.
  - simpl. unfold post_register.
    by rewrite (present_Some_2 k Hk), Hbk, Hexp.
  - apply only_register_answers_expired.
Qed.

Lemma expiry_only_at_register_witness :
  store_ok (run init bound_run).1 ∧
  isKeyValid (deref (run init bound_run).1 1) 6000 = false ∧
  step (run init bound_run).1 (PostRegister (Some "k2") 6000)
  = ((run init bound_run).1, [expired_response]).
Proof.
  assert (H : store_ok (run init bound_run).1).
  { apply (wf_run init bound_run wf_init). vm_compute. reflexivity. }
  assert (Hin : 1%nat ∈ devices (run init bound_run).1).
  { vm_compute. right. left. }
  assert (He : isKeyValid (deref (run init bound_run).1 1) 6000 = false)
    by (vm_compute; reflexivity).
  split_and!; [exact H|exact He|].
  destruct (expiry_only_at_register _ 1%nat 6000%Z H Hin He) as (_ & _ & Hr & _).
  exact Hr.
Defined.

(** ** The life of a /send call *)

(** Where an answer to call [c] can come from. *)
Lemma respond_call_origin s e c code b :
  RespondCall c code b ∈ (step s e).2 →
  (∃ cl, calls s !! c = Some cl ∧ promise cl = Pending) ∧
  ((∃ sid r rid, e = SmsResponse sid (Some r) ∧ resp_requestId r = JStr rid ∧
                 pendingRequests s !! rid = Some c) ∨
   e = TimeoutFires c).
Proof.
  destruct e; simpl; try by intros ?%elem_of_nil.
  - unfold post_device. destruct (present k); [|by intros ?%list_elem_of_singleton].
    destruct (deviceByKey s !! _); by intros ?%list_elem_of_singleton.
  - unfold delete_device. destruct (deviceByKey s !! k) as [l|];
      [|by intros ?%list_elem_of_singleton].
    unfold delete_notify. destruct (present _); simpl.
    + intros [?|?%list_elem_of_singleton]%elem_of_cons; done.
    + by intros ?%list_elem_of_singleton.
  - unfold post_register. destruct (present k); [|by intros ?%list_elem_of_singleton].
    destruct (deviceByKey s !! _); [|by intros ?%list_elem_of_singleton].
    destruct (isKeyValid _ _); by intros ?%list_elem_of_singleton.
  - unfold post_send.
    destruct (present deviceId), (present destNumber), (present textMessage);
      try by intros ?%list_elem_of_singleton.
    destruct (deviceByDeviceId s !! _); [|by intros ?%list_elem_of_singleton].
    destruct (present (socketid _)); [|by intros ?%list_elem_of_singleton].
    simpl. intros [?|[?|?%elem_of_nil]%elem_of_cons]%elem_of_cons; done.
  - unfold connect. destruct (auth_middleware auth s) as [?|[? ?]]; simpl;
      by intros ?%list_elem_of_singleton.
  - destruct (sockets s !! sid); [|by intros ?%elem_of_nil].
    unfold on_sms_response. destruct r as [r|]; [|by intros ?%list_elem_of_singleton].
    destruct (resp_requestId r) as [| | | |rid] eqn:Hr; try by intros ?%elem_of_nil.
    destruct (pendingRequests s !! rid) as [c'|] eqn:Hp; [|by intros ?%elem_of_nil].
    unfold resolver. destruct (calls s !! c') as [cl|] eqn:Hc; [|by intros ?%elem_of_nil].
    destruct (promise cl) eqn:Hpr; simpl; try by intros ?%elem_of_nil.
    intros [= -> -> ->]%list_elem_of_singleton.
    split; [by exists cl|]. left. by exists sid, r, rid.
  - unfold timeout_callback. destruct (calls s !! c0) as [cl|] eqn:Hc;
      [|by intros ?%elem_of_nil].
    destruct (timeout cl); try by intros ?%elem_of_nil.
    destruct (promise cl) eqn:Hpr; simpl; try by intros ?%elem_of_nil.
    intros [= -> -> ->]%list_elem_of_singleton.
    split; [by exists cl|]. by right.
  - unfold saveDevices. destruct (cacheDirty s); [|by intros ?%elem_of_nil].
    destruct wok; by intros ?%list_elem_of_singleton.
  - unfold on_sigint, saveDevices.
    destruct (cacheDirty (clear_socketids s)); [|by intros ?%list_elem_of_singleton].
    destruct wok; simpl; intros [?|?%list_elem_of_singleton]%elem_of_cons; done.
Qed.

(** How one step changes the slot of a call: not at all, or by keeping its
    request id and never un-settling its promise. *)
Lemma step_call_slot s e c cl :
  calls s !! c = Some cl →
  ∃ cl', calls (step s e).1 !! c = Some cl' ∧ requestId cl' = requestId cl ∧
         (promise cl ≠ Pending → promise cl' = promise cl).
Proof.
  intros Hc.
  assert (Hsame : ∀ s', calls s' = calls s →
            ∃ cl', calls s' !! c = Some cl' ∧ requestId cl' = requestId cl ∧
                   (promise cl ≠ Pending → promise cl' = promise cl)).
  { intros s' ->. by exists cl. }
  assert (Hset : ∀ c0 t p cl0, calls s !! c0 = Some cl0 →
            (promise cl0 ≠ Pending → p = promise cl0) →
            ∃ cl', set_call c0 t p cl0 (calls s) !! c = Some cl' ∧
                   requestId cl' = requestId cl ∧
                   (promise cl ≠ Pending → promise cl' = promise cl)).
  { intros c0 t p cl0 Hc0 Hp. unfold set_call.
    destruct (decide (c0 = c)) as [->|Hne].
    - rewrite list_lookup_insert_eq by by eapply lookup_lt_Some.
      assert (cl0 = cl) as -> by congruence.
      eexists. split_and!; [done|done|]. simpl. auto.
    - rewrite list_lookup_insert_ne by done. by exists cl. }
  destruct e; simpl.
  - apply Hsame. unfold post_device. destruct (present k); [|done].
    by destruct (deviceByKey s !! _).
  - apply Hsame. unfold delete_device. destruct (deviceByKey s !! k); [|done].
    unfold delete_notify. destruct (present _) as [sid|]; simpl; [|done].
    by destruct (disconnect_broker sid s).
  - apply Hsame. unfold post_register. destruct (present k); [|done].
    destruct (deviceByKey s !! _); [|done]. by destruct (isKeyValid _ _).
  - unfold post_send.
    destruct (present deviceId), (present destNumber), (present textMessage);
      try by apply Hsame.
    destruct (deviceByDeviceId s !! _); [|by apply Hsame].
    destruct (present (socketid _)); [|by apply Hsame]. simpl.
    exists cl. rewrite lookup_app_l by by eapply lookup_lt_Some. done.
  - apply Hsame. unfold connect. by destruct (auth_middleware auth s) as [?|[? ?]].
  - destruct (sockets s !! sid); [|by apply Hsame].
    unfold on_sms_response. destruct r as [r|]; [|by apply Hsame].
    destruct (resp_requestId r); try by apply Hsame.
    destruct (pendingRequests s !! _) as [c'|]; [|by apply Hsame].
    unfold resolver. destruct (calls s !! c') as [cl0|] eqn:Hc0; [|by apply Hsame].
    destruct (promise cl0) eqn:Hp; simpl; apply Hset; try done; by rewrite Hp.
  - apply Hsame. unfold on_heartbeat. by destruct (sockets s !! sid).
  - apply Hsame. unfold heartbeat_check. destruct (sockets s !! sid); [|done].
    destruct (_ <? _)%Z; [|done]. by destruct (disconnect_broker sid s).
  - apply Hsame. by destruct (disconnect_broker sid s).
  - unfold timeout_callback. destruct (calls s !! c0) as [cl0|] eqn:Hc0; [|by apply Hsame].
    destruct (timeout cl0); try by apply Hsame.
    destruct (promise cl0) eqn:Hp; simpl; apply Hset; try done; by rewrite Hp.
  - apply Hsame. unfold saveDevices. by destruct (cacheDirty s), wok.
  - apply Hsame. unfold on_sigint, saveDevices.
    destruct (clear_socketids_broker s).
    by destruct (cacheDirty (clear_socketids s)), wok.
Qed.

Lemma step_settled c s e : settled c s → settled c (step s e).1.
Proof.
  intros (cl & Hc & Hp).
  destruct (step_call_slot s e c cl Hc) as (cl' & Hc' & _ & Hp').
  exists cl'. split; [done|]. by rewrite Hp'.
Qed.

(** A settled call is never answered again. *)
Lemma settled_silent c s es : settled c s → silent c (run s es).2.
Proof.
  revert s. induction es as [|e es IH]; intros s Hs code b.
  - apply not_elem_of_nil.
  - rewrite run_cons. simpl. intros [Hin|Hin]%elem_of_app.
    + apply respond_call_origin in Hin as [(cl & Hc & Hp) _].
      destruct Hs as (cl' & Hc' & Hp'). congruence.
    + by apply (IH _ (step_settled c s e Hs) code b).
Qed.

Lemma set_call_awaiting s c rid c0 t p cl0 :
  broker_ok s → awaiting c rid s → calls s !! c0 = Some cl0 → c0 ≠ c →
  calls s !! c0 = Some cl0 →
  set_call c0 t p cl0 (calls s) !! c = Some (Call rid Armed Pending) ∧
  requestId cl0 ≠ rid.
Proof.
  intros Hok [Hc Hp] Hc0 Hne _. split.
  - unfold set_call. by rewrite list_lookup_insert_ne.
  - intros Heq.
    apply Hne, (NoDup_lookup _ c0 c rid (ok_rids s Hok));
      by rewrite list_lookup_fmap, ?Hc0, ?Hc; simpl; rewrite ?Heq.
Qed.

(** An in-flight call stays in flight through every event other than its
    own reply and its own timer. *)
Lemma step_awaiting s e c rid :
  broker_ok s → fresh s e = true → settles c rid e = false →
  awaiting c rid s → awaiting c rid (step s e).1.
Proof.
  intros Hok Hfresh Hq Haw.
  assert (Hsame : ∀ s', calls s' = calls s → pendingRequests s' = pendingRequests s →
                        awaiting c rid s').
  { intros s' Hc Hp. unfold awaiting. by rewrite Hc, Hp. }
  pose proof Haw as [Hc Hp].
  destruct e; simpl.
  - apply Hsame; unfold post_device; destruct (present k); try done;
      by destruct (deviceByKey s !! _).
  - apply Hsame; unfold delete_device; destruct (deviceByKey s !! k); try done;
      unfold delete_notify; destruct (present _) as [sid|]; simpl; try done;
      by destruct (disconnect_broker sid s).
  - apply Hsame; unfold post_register; destruct (present k); try done;
      destruct (deviceByKey s !! _); try done; by destruct (isKeyValid _ _).
  - simpl in Hfresh. apply bool_decide_eq_true in Hfresh.
    unfold post_send.
    destruct (present deviceId) as [did|] eqn:Hd; [|by apply Hsame].
    apply present_Some in Hd as [-> _]. simpl in Hfresh.
    destruct (present destNumber), (present textMessage); try by apply Hsame.
    destruct (deviceByDeviceId s !! _); [|by apply Hsame].
    destruct (present (socketid _)); [|by apply Hsame]. simpl.
    split; simpl.
    + rewrite lookup_app_l by by eapply lookup_lt_Some. done.
    + rewrite lookup_insert_ne; [done|].
      intros Heq. apply Hfresh. rewrite Heq.
      apply list_elem_of_fmap. exists (Call rid Armed Pending).
      split; [done|]. by eapply list_elem_of_lookup_2.
  - apply Hsame; unfold connect; by destruct (auth_middleware auth s) as [?|[? ?]].
  - destruct (sockets s !! sid); [|by apply Hsame].
    unfold on_sms_response. destruct r as [r|]; [|by apply Hsame].
    simpl in Hq.
    destruct (resp_requestId r) as [| | | |rid']; try by apply Hsame.
    apply String.eqb_neq in Hq.
    destruct (pendingRequests s !! rid') as [c'|] eqn:Hp'; [|by apply Hsame].
    pose proof (ok_pending s Hok _ _ Hp') as Hr'.
    rewrite list_lookup_fmap in Hr'.
    unfold resolver. destruct (calls s !! c') as [cl0|] eqn:Hc0; [|by apply Hsame].
    simpl in Hr'. injection Hr' as Hr'.
    assert (c' ≠ c) as Hne.
    { intros ->. rewrite Hc in Hc0. injection Hc0 as <-. by simpl in Hr'. }
    destruct (promise cl0); simpl; split; simpl; try done;
      by eapply set_call_awaiting.
  - apply Hsame; unfold on_heartbeat; by destruct (sockets s !! sid).
  - apply Hsame; unfold heartbeat_check; destruct (sockets s !! sid); try done;
      destruct (_ <? _)%Z; try done; by destruct (disconnect_broker sid s).
  - apply Hsame; by destruct (disconnect_broker sid s).
  - simpl in Hq. apply Nat.eqb_neq in Hq.
    unfold timeout_callback.
    destruct (calls s !! c0) as [cl0|] eqn:Hc0; [|by apply Hsame].
    destruct (timeout cl0); try by apply Hsame.
    destruct (set_call_awaiting s c rid c0 Fired (promise cl0) cl0 Hok Haw Hc0 Hq Hc0)
      as [_ Hrid].
    destruct (promise cl0) eqn:Hpr; simpl; split; simpl;
      rewrite ?lookup_delete_ne by done; try done;
      by eapply set_call_awaiting.
  - apply Hsame; unfold saveDevices; by destruct (cacheDirty s), wok.
  - apply Hsame; unfold on_sigint, saveDevices;
      destruct (clear_socketids_broker s);
      by destruct (cacheDirty (clear_socketids s)), wok.
Qed.

Lemma awaiting_not_settled_silent s e c rid :
  broker_ok s → awaiting c rid s → settles c rid e = false → silent c (step s e).2.
Proof.
  intros Hok [Hc Hp] Hq code b Hin.
  apply respond_call_origin in Hin as [_ [(sid & r & rid' & -> & Hr & Hp')| ->]].
  - simpl in Hq. rewrite Hr in Hq. apply String.eqb_neq in Hq.
    pose proof (ok_pending s Hok _ _ Hp') as Hr'.
    rewrite list_lookup_fmap, Hc in Hr'. simpl in Hr'. congruence.
  - simpl in Hq. by rewrite Nat.eqb_refl in Hq.
Qed.

Lemma run_awaiting s es c rid :
  broker_ok s → fresh_trace s es = true →
  forallb (λ e, negb (settles c rid e)) es = true →
  awaiting c rid s →
  broker_ok (run s es).1 ∧ awaiting c rid (run s es).1 ∧ silent c (run s es).2.
Proof.
  revert s. induction es as [|e es IH]; intros s Hok Hfresh Hq Haw.
  - split_and!; [done..|]. intros code b. apply not_elem_of_nil.
  - simpl in Hfresh, Hq.
    apply andb_true_iff in Hfresh as [He Hes].
    apply andb_true_iff in Hq as [Hqe Hqes]. apply negb_true_iff in Hqe.
    rewrite run_cons. simpl.
    destruct (IH (step s e).1) as (Hok' & Haw' & Hsil);
      [by apply step_broker_ok|done|done|by apply step_awaiting|].
    split_and!; [done..|].
    intros code b [Hin|Hin]%elem_of_app.
    + by apply (awaiting_not_settled_silent s e c rid Hok Haw Hqe code b).
    + by apply (Hsil code b).
Qed.

(** What the two settling events do to an in-flight call. *)
Lemma timeout_of_awaiting s c rid :
  awaiting c rid s →
  (step s (TimeoutFires c)).2 =
    [RespondCall c 408 (TimeoutBody "Device did not respond in time" false)] ∧
  pendingRequests (step s (TimeoutFires c)).1 !! rid = None ∧
  settled c (step s (TimeoutFires c)).1.
Proof.
  intros [Hc Hp]. simpl. unfold timeout_callback. rewrite Hc. simpl.
  split_and!; [done| |].
  - by rewrite !lookup_delete_eq.
  - exists (Call rid Fired Rejected). simpl. unfold set_call. simpl.
    rewrite list_lookup_insert_eq by by eapply lookup_lt_Some.
    done.
Qed.

Lemma reply_of_awaiting s c rid sid r :
  awaiting c rid s → is_Some (sockets s !! sid) → resp_requestId r = JStr rid →
  (step s (SmsResponse sid (Some r))).2 =
    [RespondCall c 200 (ProcessedBody "Message processed by device"
                                      (resp_status r) (resp_message r))] ∧
  settled c (step s (SmsResponse sid (Some r))).1.
Proof.
  intros [Hc Hp] [sock Hs] Hr. simpl. rewrite Hs.
  unfold on_sms_response. rewrite Hr, Hp. unfold resolver. rewrite Hc. simpl.
  split; [done|].
  exists (Call rid Cleared Resolved). simpl. unfold set_call. simpl.
  rewrite list_lookup_insert_eq by by eapply lookup_lt_Some.
  done.
Qed.

(** C4, as amended.  A /send call that lacks a device id, a destination or
    a text answers 400.  Otherwise it answers 404 "Device not registered"
    when no device has the device id, and 404 "Device not connected" when
    the device has no connection bound.  Otherwise it schedules its timer
    for 4500 ms, stores its resolver and pushes [insert-sms] to the bound
    connection, and answers nothing yet.  From then on, through any events
    that are neither a reply tagged with its request id nor its own timer,
    it stays unanswered; when its timer fires first it answers 408 with
    "Device did not respond in time"; when a reply tagged with its request
    id comes first, on any connection, it answers 200 with the [status] and
    [message] of that reply; and after either, it is never answered again.
    The request id is assumed not to repeat that of an earlier call. *)
Theorem post_send_spec s deviceId destNumber textMessage now rnd :
  broker_ok s →
  fresh s (PostSend deviceId destNumber textMessage now rnd) = true →
  let res := step s (PostSend deviceId destNumber textMessage now rnd) in
  match present deviceId, present destNumber, present textMessage with
  | Some did, Some dest, Some text =>
    match deviceByDeviceId s !! did with
    | None => res = (s, [Respond 404 (ErrorBody "Device not registered")])
    | Some l =>
      match present (socketid (deref s l)) with
      | None => res = (s, [Respond 404 (ErrorBody "Device not connected")])
      | Some sid =>
        let c := length (calls s) in
        let rid := make_requestId did now rnd in
        res.2 = [SetTimeout c 4500; Emit sid (InsertSms dest text rid)] ∧
        ∀ es, fresh_trace res.1 es = true →
              forallb (λ e, negb (settles c rid e)) es = true →
          let s2 := (run res.1 es).1 in
          silent c (run res.1 es).2 ∧
          ((step s2 (TimeoutFires c)).2 =
             [RespondCall c 408 (TimeoutBody "Device did not respond in time" false)] ∧
           ∀ es', silent c (run (step s2 (TimeoutFires c)).1 es').2) ∧
          (∀ sid' r, is_Some (sockets s2 !! sid') → resp_requestId r = JStr rid →
             (step s2 (SmsResponse sid' (Some r))).2 =
               [RespondCall c 200 (ProcessedBody "Message processed by device"
                                                 (resp_status r) (resp_message r))] ∧
             ∀ es', silent c (run (step s2 (SmsResponse sid' (Some r))).1 es').2)
      end
    end
  | _, _, _ =>
    res = (s, [Respond 400 (ErrorBody
                 "Device ID, destination number, and text message are required")])
  end.
Proof.
  intros Hok Hfresh. simpl. unfold post_send.
  destruct (present deviceId) as [did|] eqn:Hd; [|done].
  destruct (present destNumber) as [dest|] eqn:Hdest; [|done].
  destruct (present textMessage) as [text|] eqn:Htext; [|done].
  destruct (deviceByDeviceId s !! did) as [l|] eqn:Hl; [|done].
  destruct (present (socketid (deref s l))) as [sid|] eqn:Hsid; [|done].
  cbn [fst snd]. split; [done|].
  intros es Hes Hq.
  set (c := length (calls s)). set (rid := make_requestId did now rnd).
  set (s1 := set_pending _ _ s) in *.
  assert (Hok1 : broker_ok s1).
  { pose proof (post_send_broker_ok deviceId destNumber textMessage now rnd s Hok Hfresh) as H.
    unfold post_send in H. by rewrite Hd, Hdest, Htext, Hl, Hsid in H. }
  assert (Haw : awaiting c rid s1).
  { split; simpl.
    - by rewrite list_lookup_middle.
    - apply lookup_insert_eq. }
  destruct (run_awaiting s1 es c rid Hok1 Hes Hq Haw) as (Hok2 & Haw2 & Hsil).
  destruct (timeout_of_awaiting _ c rid Haw2) as (Hout & _ & Hset).
  split_and!; [done|done| |].
  - intros es'. by apply settled_silent.
  - intros sid' r Hs Hr. clear Hout Hset.
    destruct (reply_of_awaiting _ c rid sid' r Haw2 Hs Hr) as (Hout & Hset).
    split; [done|]. intros es'. by apply settled_silent.
Qed.

Lemma post_send_spec_witness :
  broker_ok (run init bound_run).1 ∧
  fresh (run init bound_run).1 send1 = true ∧
  (step (run init bound_run).1 send1).2 =
    [SetTimeout 0 4500; Emit "s1" (InsertSms "+15551234567" "hi" rid1)].
Proof.
  assert (H : broker_ok (run init bound_run).1).
  { apply (wf_run init bound_run wf_init). vm_compute. reflexivity. }
  assert (Hf : fresh (run init bound_run).1 send1 = true) by (vm_compute; reflexivity).
  split_and!; [exact H|exact Hf|].
  pose proof (post_send_spec _ (Some dev1) (Some "+15551234567") (Some "hi")
                3000%Z "k3j9x0q1z" H Hf) as Hs.
  assert (Hl : deviceByDeviceId (run init bound_run).1 !! dev1 = Some 0%nat)
    by (vm_compute; reflexivity).
  assert (Hsid : present (socketid (deref (run init bound_run).1 0)) = Some "s1")
    by (vm_compute; reflexivity).
  assert (E1 : present (Some dev1) = Some dev1) by reflexivity.
  assert (E2 : present (Some "+15551234567") = Some "+15551234567") by reflexivity.
  assert (E3 : present (Some "hi") = Some "hi") by reflexivity.
  rewrite E1, E2, E3, Hl, Hsid in Hs.
  destruct Hs as [Hout _]. 
  assert (Hc : length (calls (run init bound_run).1) = 0%nat) by (vm_compute; reflexivity).
  assert (Hr : make_requestId dev1 3000 "k3j9x0q1z" = rid1) by (vm_compute; reflexivity).
  rewrite Hc, Hr in Hout. exact Hout.
Defined.

(** The claim of C4 fails: no device has the device id, and the answer is
    not 404 "Device not registered" but 400, the destination being absent. *)
Lemma send_without_destination :
  deviceByDeviceId init !! "dev_000000000000000000000000" = None ∧
  step init (PostSend (Some "dev_000000000000000000000000") None (Some "hi")
                      3000 "k3j9x0q1z")
  = (init, [Respond 400 (ErrorBody
              "Device ID, destination number, and text message are required")]).
Proof. vm_compute. done. Qed.

(** The claim of C5 fails: the empty key is not registered, and the call
    answers 400 and creates nothing. *)
Lemma create_with_empty_key :
  deviceByKey init !! "" = None ∧
  step init (PostDevice (Some "") None "0011223344556677" "aabbccddeeff001122334455")
  = (init, [Respond 400 (ErrorBody "Key is required")]).
Proof. vm_compute. done. Qed.

(** * Further properties of the handlers *)

(** ** Every call is answered at most once *)

Lemma silent_no_answers c os : silent c os → List.filter (answers c) os = [].
Proof.
  intros Hs. induction os as [|o os IH]; [done|]. simpl.
  destruct (answers c o) eqn:Ha.
  - destruct o; try done. simpl in Ha. apply Nat.eqb_eq in Ha as ->.
    exfalso. apply (Hs code b). by left.
  - apply IH. intros code b Hin. apply (Hs code b). by right.
Qed.

Lemma resolver_answer_shape c' r s c :
  List.filter (answers c) (resolver c' r s).2 = [] ∨
  (∃ code b, List.filter (answers c) (resolver c' r s).2 = [RespondCall c code b] ∧
             settled c (resolver c' r s).1).
Proof.
  unfold resolver. destruct (calls s !! c') as [cl|] eqn:Hc; [|by left].
  destruct (promise cl) eqn:Hp; simpl; try by left.
  destruct (Nat.eqb_spec c' c) as [->|Hne]; [|by left].
  right. do 2 eexists. split; [done|].
  exists (Call (requestId cl) match timeout cl with Armed => Cleared | t => t end Resolved).
  simpl. unfold set_call. rewrite list_lookup_insert_eq by by eapply lookup_lt_Some.
  done.
Qed.

Lemma timeout_answer_shape c' s c :
  List.filter (answers c) (timeout_callback c' s).2 = [] ∨
  (∃ code b, List.filter (answers c) (timeout_callback c' s).2 = [RespondCall c code b] ∧
             settled c (timeout_callback c' s).1).
Proof.
  unfold timeout_callback. destruct (calls s !! c') as [cl|] eqn:Hc; [|by left].
  destruct (timeout cl); try by left.
  destruct (promise cl) eqn:Hp; simpl; try by left.
  destruct (Nat.eqb_spec c' c) as [->|Hne]; [|by left].
  right. do 2 eexists. split; [done|].
  exists (Call (requestId cl) Fired Rejected).
  simpl. unfold set_call. rewrite list_lookup_insert_eq by by eapply lookup_lt_Some.
  done.
Qed.

Lemma step_answer_shape s e c :
  List.filter (answers c) (step s e).2 = [] ∨
  (∃ code b, List.filter (answers c) (step s e).2 = [RespondCall c code b] ∧
             settled c (step s e).1).
Proof.
  destruct e; simpl; try by left.
  - unfold post_device. destruct (present k); [|by left].
    destruct (deviceByKey s !! _); by left.
  - unfold delete_device. destruct (deviceByKey s !! k) as [l|]; [|by left].
    unfold delete_notify. destruct (present _); by left.
  - unfold post_register. destruct (present k); [|by left].
    destruct (deviceByKey s !! _); [|by left]. destruct (isKeyValid _ _); by left.
  - unfold post_send.
    destruct (present deviceId), (present destNumber), (present textMessage);
      try by left.
    destruct (deviceByDeviceId s !! _); [|by left].
    destruct (present (socketid _)); by left.
  - unfold connect. destruct (auth_middleware auth s) as [?|[? ?]]; by left.
  - destruct (sockets s !! sid); [|by left].
    unfold on_sms_response. destruct r as [r|]; [|by left].
    destruct (resp_requestId r); try by left.
    destruct (pendingRequests s !! _) as [c'|]; [|by left].
    apply resolver_answer_shape.
  - apply timeout_answer_shape.
  - unfold saveDevices. destruct (cacheDirty s), wok; by left.
  - unfold on_sigint, saveDevices.
    destruct (cacheDirty (clear_socketids s)), wok; by left.
Qed.

(** X1.  In any run from any state, the outputs hold at most one answer to
    any one /send call: a reply after the timeout, a second reply, or a
    timer after a reply never produces a second response on the same [res]. *)
Theorem call_answered_at_most_once s es c :
  (length (List.filter (answers c) (run s es).2) ≤ 1)%nat.
Proof.
  revert s. induction es as [|e es IH]; intros s; [simpl; lia|].
  rewrite run_cons. cbn [snd]. rewrite List.filter_app, length_app.
  destruct (step_answer_shape s e c) as [->|(code & b & -> & Hset)].
  - simpl. apply IH.
  - rewrite (silent_no_answers c _ (settled_silent c _ es Hset)). simpl. lia.
Qed.

(** ** A binding always names a live connection *)

Lemma deref_write l v s l' :
  deref (write_socketid l v s) l' =
  if decide (l = l' ∧ (l < length (objs s))%nat)
  then set_socketid v (deref s l') else deref s l'.
Proof.
  unfold deref. simpl. rewrite !list_lookup_total_alt, list_lookup_alter.
  destruct (decide (l = l')) as [->|Hne].
  - destruct (objs s !! l') as [d|] eqn:Hd; simpl.
    + rewrite decide_True; [done|]. split; [done|]. by eapply lookup_lt_Some.
    + rewrite decide_False; [done|]. intros [_ Hlt].
      apply lookup_ge_None in Hd. lia.
  - rewrite decide_False; [done|]. by intros [? _].
Qed.

Lemma binding_ok_eq s s' :
  objs s' = objs s → sockets s' = sockets s → binding_ok s → binding_ok s'.
Proof.
  intros Ho Hs Hb l sid. unfold deref. rewrite Ho, Hs. apply Hb.
Qed.

Lemma binding_ok_disconnect sid s : binding_ok s → binding_ok (disconnect sid s).
Proof.
  intros Hb. unfold disconnect.
  destruct (sockets s !! sid) as [sock|] eqn:Hs; [|done].
  intros l sid'. unfold on_disconnect.
  change (deref (set_cacheDirty true ?x) l) with (deref x l).
  rewrite deref_write. case_decide as Hc.
  - by destruct (deref _ l).
  - change (deref (set_sockets ?m s) l) with (deref s l).
    intros Hl. destruct (Hb l sid' Hl) as (sock' & Hs' & Hobj).
    exists sock'. split; [|done]. simpl.
    rewrite lookup_delete_ne; [done|].
    intros <-. rewrite Hs in Hs'. injection Hs' as <-.
    destruct (decide (deviceObj sock < length (objs s))%nat) as [Hlt|Hge].
    + apply Hc. by split.
    + unfold deref in Hl. rewrite list_lookup_total_alt in Hl.
      rewrite (lookup_ge_None_2 (objs s) l) in Hl by lia. done.
Qed.

Lemma binding_ok_connect sid auth now s :
  binding_ok s → sockets s !! sid = None → binding_ok (connect sid auth now s).1.
Proof.
  intros Hb Hnew. unfold connect.
  destruct (auth_middleware auth s) as [msg|[did l]]; [done|].
  intros l' sid'. simpl.
  change (deref (set_sockets ?m (set_cacheDirty true ?x)) l') with (deref x l').
  rewrite deref_write. case_decide as Hc.
  - destruct Hc as [<- _]. destruct (deref s l); simpl. intros [= <-].
    eexists. by rewrite lookup_insert_eq.
  - intros Hl. destruct (Hb l' sid' Hl) as (sock' & Hs' & Hobj).
    exists sock'. split; [|done].
    rewrite lookup_insert_ne; [done|]. intros <-. congruence.
Qed.

Lemma binding_ok_heartbeat sid now s : binding_ok s → binding_ok (on_heartbeat sid now s).
Proof.
  intros Hb. unfold on_heartbeat.
  destruct (sockets s !! sid) as [sock|] eqn:Hs; [|done].
  intros l sid' Hl. destruct (Hb l sid' Hl) as (sock' & Hs' & Hobj).
  simpl. destruct (decide (sid = sid')) as [<-|Hne].
  - rewrite lookup_insert_eq. eexists. split; [done|]. simpl. congruence.
  - rewrite lookup_insert_ne by done. by exists sock'.
Qed.

Lemma foldl_write_sockets ls s :
  sockets (foldl (λ s' l, write_socketid l None s') s ls) = sockets s.
Proof. revert s. induction ls as [|l ls IH]; intros s; simpl; [done|]. by rewrite IH. Qed.

Lemma binding_ok_clear s : binding_ok s → binding_ok (clear_socketids s).
Proof.
  intros Hb l sid. unfold clear_socketids.
  rewrite foldl_write_deref, foldl_write_sockets.
  case_decide; [by destruct (deref s l)|apply Hb].
Qed.

Lemma binding_ok_post_device k exp rnd_id rnd_dev s :
  binding_ok s → binding_ok (post_device k exp rnd_id rnd_dev s).1.
Proof.
  intros Hb. unfold post_device. destruct (present k) as [k'|]; [|done].
  destruct (deviceByKey s !! k'); [done|]. simpl.
  intros l sid. unfold deref. simpl. rewrite list_lookup_total_alt.
  destruct (decide (l < length (objs s))%nat) as [Hlt|Hge].
  - rewrite lookup_app_l by done. rewrite <-list_lookup_total_alt. apply Hb.
  - destruct (decide (l = length (objs s))) as [->|Hne].
    + by rewrite list_lookup_middle.
    + rewrite lookup_ge_None_2; [done|]. rewrite length_app. simpl. lia.
Qed.

Lemma binding_ok_step s e :
  binding_ok s → new_socket s e = true → binding_ok (step s e).1.
Proof.
  intros Hb Hnew. destruct e; simpl.
  - by apply binding_ok_post_device.
  - unfold delete_device. destruct (deviceByKey s !! k) as [l|]; [|done].
    unfold delete_notify. destruct (present _) as [sid|]; simpl.
    + by apply (binding_ok_eq (disconnect sid s)), binding_ok_disconnect.
    + by apply (binding_ok_eq s).
  - unfold post_register. destruct (present k); [|done].
    destruct (deviceByKey s !! _); [|done]. by destruct (isKeyValid _ _).
  - destruct (post_send_frame deviceId destNumber textMessage now rnd s)
      as (? & _ & _ & _ & _ & ?). by apply (binding_ok_eq s).
  - simpl in Hnew. apply bool_decide_eq_true in Hnew. by apply binding_ok_connect.
  - destruct (sockets s !! sid); [|done].
    destruct (on_sms_response_frame r s) as (? & _ & _ & _ & _ & ? & _).
    by apply (binding_ok_eq s).
  - by apply binding_ok_heartbeat.
  - unfold heartbeat_check. destruct (sockets s !! sid); [|done].
    destruct (_ <? _)%Z; [by apply binding_ok_disconnect|done].
  - by apply binding_ok_disconnect.
  - destruct (timeout_callback_frame c s) as (? & _ & _ & _ & _ & ?).
    by apply (binding_ok_eq s).
  - unfold saveDevices. destruct (cacheDirty s), wok; simpl; try done;
      by apply (binding_ok_eq s).
  - unfold on_sigint, saveDevices.
    pose proof (binding_ok_clear s Hb) as Hb'.
    destruct (cacheDirty (clear_socketids s)), wok; simpl; done.
Qed.

Lemma binding_ok_run s es :
  binding_ok s → new_sockets s es = true → binding_ok (run s es).1.
Proof.
  revert s. induction es as [|e es IH]; intros s Hb Hnew; [done|].
  simpl in Hnew. apply andb_true_iff in Hnew as [He Hes].
  rewrite run_cons. simpl. apply IH; [by apply binding_ok_step|done].
Qed.

Lemma binding_ok_init : binding_ok init.
Proof. intros l sid Hl. unfold deref in Hl. simpl in Hl. by destruct l. Qed.

Lemma push_room s e room p :
  Emit room p ∈ (step s e).2 →
  match p with
  | Connected _ _ => ∃ auth now, e = Connect room auth now
  | _ => ∃ l, socketid (deref s l) = Some room
  end.
Proof.
  destruct e; simpl; try by intros ?%elem_of_nil.
  - unfold post_device. destruct (present k); [|by intros ?%list_elem_of_singleton].
    destruct (deviceByKey s !! _); by intros ?%list_elem_of_singleton.
  - unfold delete_device. destruct (deviceByKey s !! k) as [l|];
      [|by intros ?%list_elem_of_singleton].
    unfold delete_notify. destruct (present _) as [sid|] eqn:Hsid; simpl.
    + intros [[= -> ->]|?%list_elem_of_singleton]%elem_of_cons; [|done].
      exists l. by apply present_Some in Hsid as [? _].
    + by intros ?%list_elem_of_singleton.
  - unfold post_register. destruct (present k); [|by intros ?%list_elem_of_singleton].
    destruct (deviceByKey s !! _); [|by intros ?%list_elem_of_singleton].
    destruct (isKeyValid _ _); by intros ?%list_elem_of_singleton.
  - unfold post_send.
    destruct (present deviceId), (present destNumber), (present textMessage);
      try by intros ?%list_elem_of_singleton.
    destruct (deviceByDeviceId s !! _) as [l|]; [|by intros ?%list_elem_of_singleton].
    destruct (present (socketid _)) as [sid|] eqn:Hsid;
      [|by intros ?%list_elem_of_singleton].
    simpl. intros [?|[[= -> ->]|?%elem_of_nil]%elem_of_cons]%elem_of_cons; try done.
    exists l. by apply present_Some in Hsid as [? _].
  - unfold connect. destruct (auth_middleware auth s) as [?|[? ?]]; simpl.
    + by intros ?%list_elem_of_singleton.
    + intros [= -> ->]%list_elem_of_singleton. eauto.
  - destruct (sockets s !! sid); [|by intros ?%elem_of_nil].
    unfold on_sms_response. destruct r as [r|]; [|by intros ?%list_elem_of_singleton].
    destruct (resp_requestId r); try by intros ?%elem_of_nil.
    destruct (pendingRequests s !! _) as [c|]; [|by intros ?%elem_of_nil].
    unfold resolver. destruct (calls s !! c) as [cl|]; [|by intros ?%elem_of_nil].
    destruct (promise cl); simpl;
      first [by intros ?%list_elem_of_singleton|by intros ?%elem_of_nil].
  - unfold timeout_callback. destruct (calls s !! c) as [cl|]; [|by intros ?%elem_of_nil].
    destruct (timeout cl); try by intros ?%elem_of_nil.
    destruct (promise cl); simpl;
      first [by intros ?%list_elem_of_singleton|by intros ?%elem_of_nil].
  - unfold saveDevices. destruct (cacheDirty s); [|by intros ?%elem_of_nil].
    destruct wok; by intros ?%list_elem_of_singleton.
  - unfold on_sigint, saveDevices.
    destruct (cacheDirty (clear_socketids s)); [|by intros ?%list_elem_of_singleton].
    destruct wok; simpl; intros [?|?%list_elem_of_singleton]%elem_of_cons; done.
Qed.

(** X2.  Started on an empty store, with socket ids that are not reused
    while connected, the server never pushes [insert-sms] or
    [force_disconnect] to a socket that is not connected: the [socketid] it
    addresses always names a connected socket that was bound to that very
    device object. *)
Theorem pushes_reach_connected_sockets es e room p :
  new_sockets init es = true →
  Emit room p ∈ (step (run init es).1 e).2 →
  (∀ m d, p ≠ Connected m d) →
  ∃ sock, sockets (run init es).1 !! room = Some sock ∧
          socketid (deref (run init es).1 (deviceObj sock)) = Some room.
Proof.
  intros Hnew Hin Hp.
  pose proof (binding_ok_run init es binding_ok_init Hnew) as Hb.
  apply push_room in Hin.
  destruct p as [reason|dest text rid|m d]; [| |by destruct (Hp m d)].
  - destruct Hin as (l & Hl). destruct (Hb l room Hl) as (sock & Hs & <-). eauto.
  - destruct Hin as (l & Hl). destruct (Hb l room Hl) as (sock & Hs & <-). eauto.
Qed.

Lemma pushes_reach_connected_sockets_witness :
  new_sockets init bound_run = true ∧
  Emit "s1" (InsertSms "+15551234567" "hi" rid1) ∈ (step (run init bound_run).1 send1).2 ∧
  ∃ sock, sockets (run init bound_run).1 !! "s1" = Some sock ∧
          socketid (deref (run init bound_run).1 (deviceObj sock)) = Some "s1".
Proof.
  assert (H1 : new_sockets init bound_run = true) by (vm_compute; reflexivity).
  assert (H2 : Emit "s1" (InsertSms "+15551234567" "hi" rid1)
               ∈ (step (run init bound_run).1 send1).2).
  { vm_compute. right. left. }
  split_and!; [exact H1|exact H2|].
  apply (pushes_reach_connected_sockets bound_run send1 "s1" _ H1 H2). done.
Defined.

(** ** Loading what was saved *)

Lemma index_device_frame s l :
  objs (index_device s l) = objs s ∧ devices (index_device s l) = devices s ∧
  sockets (index_device s l) = sockets s ∧ calls (index_device s l) = calls s ∧
  pendingRequests (index_device s l) = pendingRequests s.
Proof. done. Qed.

Lemma foldl_index_rest ls s :
  sockets (foldl index_device s ls) = sockets s ∧
  calls (foldl index_device s ls) = calls s ∧
  pendingRequests (foldl index_device s ls) = pendingRequests s.
Proof.
  revert s. induction ls as [|l ls IH]; intros s; simpl; [done|].
  by destruct (IH (index_device s l)) as (-> & -> & ->).
Qed.

(** The indices after the first [m] records of the file have been entered. *)
Lemma foldl_index_lookup ds s0 m :
  file_ok ds → objs s0 = ds → deviceByKey s0 = ∅ → deviceByDeviceId s0 = ∅ →
  (m ≤ length ds)%nat →
  let s := foldl index_device s0 (seq 0 m) in
  (∀ k i, deviceByKey s !! k = Some i ↔ (i < m)%nat ∧ key <$> ds !! i = Some k) ∧
  (∀ k i, deviceByDeviceId s !! k = Some i ↔
          (i < m)%nat ∧ deviceid <$> ds !! i = Some k).
Proof.
  intros (Hnk & Hnd & Hne) Ho Hk0 Hd0. induction m as [|m IH]; intros Hm s.
  - subst s. simpl. rewrite Hk0, Hd0.
    split; intros k i; rewrite lookup_empty; split; [done|lia|done|lia].
  - subst s. rewrite seq_S, foldl_app. simpl.
    destruct IH as [IHk IHd]; [lia|].
    set (s := foldl index_device s0 (seq 0 m)) in *.
    assert (Hobjs : objs s = ds).
    { subst s. by destruct (foldl_index_frame (seq 0 m) s0) as [-> _]. }
    destruct (lookup_lt_is_Some_2 ds m) as [d Hd]; [lia|].
    assert (Hderef : deref s m = d).
    { unfold deref. rewrite Hobjs. by apply list_lookup_total_correct. }
    pose proof (proj1 (Forall_lookup _ _) Hne m d Hd) as [Hkd Hdd].
    unfold index_device. rewrite Hderef. simpl.
    apply truthy_true in Hdd as Htr. rewrite Htr.
    split; intros k i; rewrite lookup_insert; case_decide as Hc.
    + subst k. split.
      * intros [= <-]. split; [lia|]. by rewrite Hd.
      * intros [Hi Hki]. f_equal.
        eapply (NoDup_lookup _ m i (key d) Hnk);
          by rewrite list_lookup_fmap, ?Hd.
    + rewrite IHk. split; intros [Hi Hki]; split; try done; [lia|].
      destruct (decide (i = m)) as [->|]; [|lia].
      rewrite Hd in Hki. simpl in Hki. congruence.
    + subst k. split.
      * intros [= <-]. split; [lia|]. by rewrite Hd.
      * intros [Hi Hki]. f_equal.
        eapply (NoDup_lookup _ m i (deviceid d) Hnd);
          by rewrite list_lookup_fmap, ?Hd.
    + rewrite IHd. split; intros [Hi Hki]; split; try done; [lia|].
      destruct (decide (i = m)) as [->|]; [|lia].
      rewrite Hd in Hki. simpl in Hki. congruence.
Qed.

Lemma loaded_state ds wok :
  file_ok ds →
  ∃ s, (startServer (Parsed ds) wok).1 = Registry s ∧
  objs s = ds ∧ devices s = seq 0 (length ds) ∧
  sockets s = ∅ ∧ calls s = [] ∧ pendingRequests s = ∅ ∧
  (∀ k i, deviceByKey s !! k = Some i ↔ key <$> ds !! i = Some k) ∧
  (∀ k i, deviceByDeviceId s !! k = Some i ↔ deviceid <$> ds !! i = Some k).
Proof.
  intros Hok.
  set (s0 := State ds (seq 0 (length ds)) ∅ ∅ ∅ false ∅ []).
  exists (foldl index_device s0 (seq 0 (length ds))).
  split; [reflexivity|].
  destruct (foldl_index_frame (seq 0 (length ds)) s0) as [Ho Hd].
  destruct (foldl_index_rest (seq 0 (length ds)) s0) as (Hs & Hc & Hp).
  destruct (foldl_index_lookup ds s0 (length ds) Hok eq_refl eq_refl eq_refl (le_n _))
    as [Hk Hi].
  split_and!; try done.
  - intros k i. rewrite Hk. split; [by intros [_ ?]|].
    intros Hki. split; [|done].
    destruct (ds !! i) eqn:E; [|done]. by eapply lookup_lt_Some.
  - intros k i. rewrite Hi. split; [by intros [_ ?]|].
    intros Hki. split; [|done].
    destruct (ds !! i) eqn:E; [|done]. by eapply lookup_lt_Some.
Qed.


Lemma snapshot_file_ok s : store_ok s → file_ok (snapshot s).
Proof.
  intros Hok. unfold file_ok, snapshot. split_and!.
  - rewrite <-list_fmap_compose. apply NoDup_fmap_2_strong; [|apply Hok].
    intros l1 l2 H1 H2 Heq. simpl in Heq.
    pose proof (ok_by_key s Hok l1 H1) as E1.
    pose proof (ok_by_key s Hok l2 H2) as E2. congruence.
  - rewrite <-list_fmap_compose. apply NoDup_fmap_2_strong; [|apply Hok].
    intros l1 l2 H1 H2 Heq. simpl in Heq.
    pose proof (ok_by_id s Hok l1 H1) as E1.
    pose proof (ok_by_id s Hok l2 H2) as E2. congruence.
  - apply Forall_fmap, Forall_forall. intros l Hl. simpl.
    pose proof (ok_by_key s Hok l Hl) as E1.
    pose proof (ok_by_id s Hok l Hl) as E2.
    apply (ok_key_only s Hok) in E1 as (_ & _ & ?).
    apply (ok_id_only s Hok) in E2 as (_ & _ & ?). done.
Qed.



(** X4.  A [socketid] that a periodic flush wrote into the file comes back
    with the record when the file is loaded.  After the restart no socket
    is connected, yet /send to that device does not answer "Device not
    connected": it registers the request and pushes to the room of the old
    socket id. *)
Theorem restart_resurrects_binding ds wok i d sid dest text now rnd :
  file_ok ds → ds !! i = Some d → socketid d = Some sid →
  sid ≠ "" → dest ≠ "" → text ≠ "" →
  ∃ s, (startServer (Parsed ds) wok).1 = Registry s ∧
  sockets s = ∅ ∧
  socketid (deref s i) = Some sid ∧
  (step s (PostSend (Some (deviceid d)) (Some dest) (Some text) now rnd)).2 =
    [SetTimeout 0 4500;
     Emit sid (InsertSms dest text (make_requestId (deviceid d) now rnd))].
Proof.
  intros Hok Hi Hsid Hs Hdest Htext.
  destruct (loaded_state ds wok Hok) as (s & Hreg & Ho & _ & Hsock & Hc & _ & _ & Hid).
  exists s. split; [exact Hreg|].
  assert (Hderef : deref s i = d).
  { unfold deref. rewrite Ho. by apply list_lookup_total_correct. }
  assert (Hl : deviceByDeviceId s !! deviceid d = Some i).
  { apply Hid. by rewrite Hi. }
  destruct Hok as (_ & _ & Hne).
  pose proof (proj1 (Forall_lookup _ _) Hne i d Hi) as [_ Hdid].
  split_and!; [done|by rewrite Hderef|].
  simpl. unfold post_send.
  rewrite (present_Some_2 _ Hdid), (present_Some_2 _ Hdest), (present_Some_2 _ Htext).
  rewrite Hl, Hderef, Hsid, (present_Some_2 _ Hs). simpl. by rewrite Hc.
Qed.

Lemma restart_resurrects_binding_witness :
  file_ok (snapshot (run init bound_run).1) ∧
  snapshot (run init bound_run).1 !! 0%nat
    = Some (Device "0011223344556677" "abc123" dev1 None (Some "s1")) ∧
  ∃ s, (startServer (Parsed (snapshot (run init bound_run).1)) true).1 = Registry s ∧
       sockets s = ∅.
Proof.
  assert (H : file_ok (snapshot (run init bound_run).1)).
  { apply snapshot_file_ok, (wf_run init bound_run wf_init). vm_compute. reflexivity. }
  assert (Hi : snapshot (run init bound_run).1 !! 0%nat
               = Some (Device "0011223344556677" "abc123" dev1 None (Some "s1")))
    by (vm_compute; reflexivity).
  split_and!; [exact H|exact Hi|].
  assert (Hne : ∀ a b, String a b ≠ "") by done.
  destruct (restart_resurrects_binding _ true 0%nat _ "s1" "+15551234567" "hi"
              3000%Z "k3j9x0q1z" H Hi eq_refl (Hne _ _) (Hne _ _) (Hne _ _))
    as (s & Hreg & Hs & _).
  exists s. split; [exact Hreg|exact Hs].
Defined.

(** ** The dirty flag *)

Lemma snapshot_eq s s' :
  objs s' = objs s → devices s' = devices s → snapshot s' = snapshot s.
Proof. intros Ho Hd. unfold snapshot, deref. by rewrite Ho, Hd. Qed.

Lemma disconnect_dirty sid s :
  disconnect sid s = s ∨ cacheDirty (disconnect sid s) = true.
Proof. unfold disconnect. destruct (sockets s !! sid); [by right|by left]. Qed.

(** X5.  No handler other than the shutdown handler changes what a flush
    would write without setting the dirty flag: whenever a step changes the
    array or a record in it, [cacheDirty] is true afterwards. *)
Theorem change_sets_dirty s e :
  (∀ wok, e ≠ Sigint wok) →
  snapshot (step s e).1 ≠ snapshot s →
  cacheDirty (step s e).1 = true.
Proof.
  intros Hsig Hchg.
  assert (Hsame : ∀ s', objs s' = objs s → devices s' = devices s → s' = (step s e).1 →
                        cacheDirty (step s e).1 = true).
  { intros s' Ho Hd Heq. exfalso. apply Hchg. rewrite <-Heq. by apply snapshot_eq. }
  destruct e; simpl in *.
  - unfold post_device in *. destruct (present k); [|by apply (Hsame s)].
    destruct (deviceByKey s !! _); [by apply (Hsame s)|done].
  - unfold delete_device in *. destruct (deviceByKey s !! k); [|by apply (Hsame s)].
    by destruct (delete_notify _ s).
  - unfold post_register in *. destruct (present k); [|by apply (Hsame s)].
    destruct (deviceByKey s !! _); [|by apply (Hsame s)].
    destruct (isKeyValid _ _); by apply (Hsame s).
  - destruct (post_send_frame deviceId destNumber textMessage now rnd s)
      as (Ho & Hd & _). by eapply Hsame.
  - unfold connect in *. destruct (auth_middleware auth s) as [?|[? ?]];
      [by apply (Hsame s)|done].
  - destruct (sockets s !! sid); [|by apply (Hsame s)].
    destruct (on_sms_response_frame r s) as (Ho & Hd & _). by eapply Hsame.
  - unfold on_heartbeat in *. destruct (sockets s !! sid); by eapply Hsame.
  - unfold heartbeat_check in *. destruct (sockets s !! sid); [|by apply (Hsame s)].
    destruct (_ <? _)%Z; [|by apply (Hsame s)].
    destruct (disconnect_dirty sid s) as [Heq|Hd]; [|done].
    rewrite Heq in *. by apply (Hsame s).
  - destruct (disconnect_dirty sid s) as [Heq|Hd]; [|done].
    rewrite Heq in *. by apply (Hsame s).
  - destruct (timeout_callback_frame c s) as (Ho & Hd & _). by eapply Hsame.
  - unfold saveDevices in *. destruct (cacheDirty s), wok; by eapply Hsame.
  - by destruct (Hsig wok).
Qed.

Lemma change_sets_dirty_witness :
  snapshot (step (run init created_run).1 (Connect "s1" (Some dev1) 1000)).1
    ≠ snapshot (run init created_run).1 ∧
  cacheDirty (step (run init created_run).1 (Connect "s1" (Some dev1) 1000)).1 = true.
Proof.
  assert (H : snapshot (step (run init created_run).1 (Connect "s1" (Some dev1) 1000)).1
              ≠ snapshot (run init created_run).1).
  { vm_compute. intros [=]. }
  split; [exact H|].
  apply (change_sets_dirty _ (Connect "s1" (Some dev1) 1000)); [done|exact H].
Defined.

(** X6.  A failed write is logged and leaves the flag set, so the next tick
    writes the same records; a successful write clears the flag, and a tick
    with nothing new writes nothing. *)
Theorem save_retries_until_written s :
  cacheDirty s = true →
  run s [SaveTick false; SaveTick true; SaveTick true] =
    (set_cacheDirty false s,
     [ConsoleError "Error saving devices:"; WriteFile (snapshot s)]).
Proof.
  intros Hd. simpl. unfold saveDevices. rewrite Hd. simpl. by rewrite Hd.
Qed.

Lemma save_retries_until_written_witness :
  cacheDirty (run init created_run).1 = true ∧
  (run (run init created_run).1 [SaveTick false; SaveTick true; SaveTick true]).2 =
    [ConsoleError "Error saving devices:"; WriteFile (snapshot (run init created_run).1)].
Proof.
  assert (H : cacheDirty (run init created_run).1 = true) by (vm_compute; reflexivity).
  split; [exact H|].
  by rewrite (save_retries_until_written _ H).
Defined.

Lemma foldl_write_by_id ls s :
  deviceByDeviceId (foldl (λ s' l, write_socketid l None s') s ls) = deviceByDeviceId s.
Proof. revert s. induction ls as [|l ls IH]; intros s; simpl; [done|]. by rewrite IH. Qed.

Lemma clear_socketids_snapshot s :
  cacheDirty (clear_socketids s) = cacheDirty s ∧
  sockets (clear_socketids s) = sockets s ∧
  devices (clear_socketids s) = devices s ∧
  deviceByDeviceId (clear_socketids s) = deviceByDeviceId s.
Proof.
  unfold clear_socketids.
  by rewrite foldl_write_dirty, foldl_write_sockets, foldl_write_devices,
    foldl_write_by_id.
Qed.

(** X7.  The shutdown handler clears every [socketid] in memory but does not
    set the dirty flag, so after a periodic flush with no change since, it
    writes nothing: the file keeps the records as the periodic flush wrote
    them, live socket ids included, while memory holds them nulled. *)
Theorem shutdown_after_flush_writes_nothing s wok :
  cacheDirty s = true →
  (run s [SaveTick true; Sigint wok]).2 = [WriteFile (snapshot s); ServerClose] ∧
  snapshot (run s [SaveTick true; Sigint wok]).1 = set_socketid None <$> snapshot s.
Proof.
  intros Hd.
  assert (H1 : step s (SaveTick true) = (set_cacheDirty false s, [WriteFile (snapshot s)])).
  { simpl. unfold saveDevices. by rewrite Hd. }
  assert (H2 : step (set_cacheDirty false s) (Sigint wok) =
               (clear_socketids (set_cacheDirty false s), [ServerClose])).
  { cbn [step]. unfold on_sigint, saveDevices.
    by destruct (clear_socketids_snapshot (set_cacheDirty false s)) as (-> & _). }
  rewrite run_cons, H1. cbn [fst snd]. rewrite run_cons, H2. cbn [fst snd run app].
  split; [done|].
  rewrite snapshot_clear. f_equal.
Qed.

Lemma shutdown_after_flush_writes_nothing_witness :
  cacheDirty (run init bound_run).1 = true ∧
  (run (run init bound_run).1 [SaveTick true; Sigint true]).2 =
    [WriteFile (snapshot (run init bound_run).1); ServerClose].
Proof.
  assert (H : cacheDirty (run init bound_run).1 = true) by (vm_compute; reflexivity).
  split; [exact H|].
  destruct (shutdown_after_flush_writes_nothing _ true H) as [Ho _]. exact Ho.
Defined.

(** ** Create, look up, delete *)

Lemma post_device_fresh_key k exp rnd_id rnd_dev s :
  k ≠ "" → deviceByKey s !! k = None →
  step s (PostDevice (Some k) exp rnd_id rnd_dev) =
    (State (objs s ++ [Device rnd_id k (generateDeviceId rnd_dev) exp None])
           (devices s ++ [length (objs s)])
           (<[k := length (objs s)]> (deviceByKey s))
           (<[generateDeviceId rnd_dev := length (objs s)]> (deviceByDeviceId s))
           (pendingRequests s) true (sockets s) (calls s),
     [Respond 201 (CreatedBody "Device key created successfully" rnd_id
                               (generateDeviceId rnd_dev))]).
Proof.
  intros Hk Hnone. cbn [step]. unfold post_device.
  by rewrite (present_Some_2 k Hk), Hnone.
Qed.

(** X9.  The ids that a create call returns work at once: /register with the
    key answers 200 with the same device id (at any time before the expiry,
    if one was given), and a socket that presents the device id passes the
    handshake and is bound to the new record. *)
Theorem created_device_usable s k exp rnd_id rnd_dev now sid now' :
  k ≠ "" → deviceByKey s !! k = None →
  isKeyValid (Device rnd_id k (generateDeviceId rnd_dev) exp None) now = true →
  let s1 := (step s (PostDevice (Some k) exp rnd_id rnd_dev)).1 in
  let did := generateDeviceId rnd_dev in
  step s1 (PostRegister (Some k) now) =
    (s1, [Respond 200 (RegisteredBody "Device registered successfully" did)]) ∧
  (step s1 (Connect sid (Some did) now')).2 =
    [Emit sid (Connected "Successfully connected to server" did)] ∧
  socketid (deref (step s1 (Connect sid (Some did) now')).1 (length (objs s))) = Some sid.
Proof.
  intros Hk Hnone Hvalid.
  rewrite (post_device_fresh_key k exp rnd_id rnd_dev s Hk Hnone). cbn [fst].
  set (s1 := State _ _ _ _ _ _ _ _).
  assert (Hderef : deref s1 (length (objs s)) =
                   Device rnd_id k (generateDeviceId rnd_dev) exp None).
  { unfold deref, s1. simpl. by rewrite list_lookup_total_middle. }
  split_and!.
  - cbn [step]. unfold post_register. rewrite (present_Some_2 k Hk).
    unfold s1 at 1. cbn [deviceByKey]. rewrite lookup_insert_eq.
    by rewrite Hderef, Hvalid.
  - cbn [step]. unfold connect, auth_middleware.
    rewrite (present_Some_2 _ (generateDeviceId_truthy rnd_dev)).
    unfold s1 at 1. cbn [deviceByDeviceId]. by rewrite lookup_insert_eq.
  - cbn [step]. unfold connect, auth_middleware.
    rewrite (present_Some_2 _ (generateDeviceId_truthy rnd_dev)).
    unfold s1 at 1. cbn [deviceByDeviceId]. rewrite lookup_insert_eq.
    unfold on_connection. cbn [fst].
    change (deref (set_sockets ?m (set_cacheDirty true ?x)) ?l) with (deref x l).
    rewrite deref_write_eq; [by rewrite Hderef|].
    unfold s1. simpl. rewrite length_app. simpl. lia.
Qed.

Lemma created_device_usable_witness :
  deviceByKey init !! "abc123" = None ∧
  step (step init create1).1 (PostRegister (Some "abc123") 6000) =
    ((step init create1).1,
     [Respond 200 (RegisteredBody "Device registered successfully"
                                  (generateDeviceId "aabbccddeeff001122334455"))]).
Proof.
  assert (H : deviceByKey init !! "abc123" = None) by done.
  split; [exact H|].
  assert (Hne : ∀ a b, String a b ≠ "") by done.
  destruct (created_device_usable init "abc123" None "0011223344556677"
              "aabbccddeeff001122334455" 6000%Z "s1" 7000%Z (Hne _ _) H eq_refl)
    as (Hr & _).
  exact Hr.
Defined.

Lemma findIndex_last {A} (p : A → bool) l y :
  (∀ x, x ∈ l → p x = false) → p y = true →
  findIndex p (l ++ [y]) = Some (length l).
Proof.
  intros Hl Hy. induction l as [|x l IH]; simpl.
  - by rewrite Hy.
  - rewrite (Hl x) by by left. rewrite IH; [done|].
    intros z Hz. apply Hl. by right.
Qed.

(** X10.  Deleting a device right after creating it gives back the registry
    as it was: the array, both indices and what a flush would write are
    those from before the create; only the dirty flag is left set. *)
Theorem delete_after_create s k exp rnd_id rnd_dev :
  store_ok s → k ≠ "" → deviceByKey s !! k = None →
  deviceByDeviceId s !! generateDeviceId rnd_dev = None →
  let r := run s [PostDevice (Some k) exp rnd_id rnd_dev; DeleteDevice k] in
  devices r.1 = devices s ∧ deviceByKey r.1 = deviceByKey s ∧
  deviceByDeviceId r.1 = deviceByDeviceId s ∧ snapshot r.1 = snapshot s ∧
  sockets r.1 = sockets s ∧ pendingRequests r.1 = pendingRequests s ∧
  cacheDirty r.1 = true ∧
  r.2 = [Respond 201 (CreatedBody "Device key created successfully" rnd_id
                                  (generateDeviceId rnd_dev));
         Respond 200 (MessageBody "Device key deleted successfully")].
Proof.
  intros Hok Hk Hnone Hfresh.
  rewrite run_cons, (post_device_fresh_key k exp rnd_id rnd_dev s Hk Hnone).
  cbn [fst snd]. set (s1 := State _ _ _ _ _ _ _ _).
  assert (Hnew : deref s1 (length (objs s)) =
                 Device rnd_id k (generateDeviceId rnd_dev) exp None).
  { unfold deref, s1. simpl. by rewrite list_lookup_total_middle. }
  assert (Hold : ∀ l, l ∈ devices s → deref s1 l = deref s l).
  { intros l Hl. unfold deref, s1. simpl.
    apply lookup_total_app_l. by apply Hok. }
  assert (Hfind : findIndex (λ l', String.eqb (key (deref s1 l')) k) (devices s1)
                  = Some (length (devices s))).
  { unfold s1 at 2. cbn [devices]. apply findIndex_last.
    - intros l Hl. rewrite (Hold l Hl). apply String.eqb_neq. intros Heq.
      pose proof (ok_by_key s Hok l Hl) as E. congruence.
    - rewrite Hnew. simpl. apply String.eqb_refl. }
  assert (Hstep : step s1 (DeleteDevice k) =
            (State (objs s1) (devices s) (deviceByKey s) (deviceByDeviceId s)
                   (pendingRequests s) true (sockets s) (calls s),
             [Respond 200 (MessageBody "Device key deleted successfully")])).
  { cbn [step]. unfold delete_device.
    unfold s1 at 1. cbn [deviceByKey]. rewrite lookup_insert_eq.
    unfold delete_notify. rewrite Hnew. cbn [socketid present fst snd app].
    unfold delete_remove. rewrite Hfind, Hnew. cbn [deviceid].
    rewrite (proj2 (truthy_true _) (generateDeviceId_truthy rnd_dev)).
    unfold s1. cbn [objs devices deviceByKey deviceByDeviceId pendingRequests
                    sockets calls splice_found].
    rewrite delete_middle, app_nil_r, !delete_insert_id by done. done. }
  rewrite run_cons, Hstep. cbn [fst snd run app devices deviceByKey deviceByDeviceId
    sockets pendingRequests cacheDirty].
  split_and!; try done.
  unfold snapshot. cbn [devices]. apply list_fmap_ext. intros i l Hl.
  unfold deref. cbn [objs]. unfold s1. cbn [objs].
  apply lookup_total_app_l, Hok. by eapply list_elem_of_lookup_2.
Qed.

Lemma delete_after_create_witness :
  store_ok init ∧ deviceByKey init !! "abc123" = None ∧
  deviceByDeviceId init !! generateDeviceId "aabbccddeeff001122334455" = None ∧
  devices (run init [create1; DeleteDevice "abc123"]).1 = [].
Proof.
  assert (H : store_ok init) by apply wf_init.
  assert (Hk : deviceByKey init !! "abc123" = None) by done.
  assert (Hd : deviceByDeviceId init !! generateDeviceId "aabbccddeeff001122334455"
               = None) by done.
  split_and!; [exact H|exact Hk|exact Hd|].
  assert (Hne : ∀ a b, String a b ≠ "") by done.
  destruct (delete_after_create init "abc123" None "0011223344556677"
              "aabbccddeeff001122334455" H (Hne _ _) Hk Hd) as (Hdev & _).
  exact Hdev.
Defined.

Lemma delete_device_indices s k l :
  store_ok s → deviceByKey s !! k = Some l →
  deviceByKey (step s (DeleteDevice k)).1 = delete k (deviceByKey s) ∧
  deviceByDeviceId (step s (DeleteDevice k)).1 =
    delete (deviceid (deref s l)) (deviceByDeviceId s) ∧
  deviceid (deref s l) ≠ "".
Proof.
  intros Hok Hl. cbn [step]. unfold delete_device. rewrite Hl.
  pose proof (delete_notify_same l s) as Hsame.
  destruct (delete_notify l s) as [s1 out]. cbn [fst snd] in *.
  pose proof (same_registry_store_ok _ _ Hsame Hok) as Hok1.
  assert (Hl1 : deviceByKey s1 !! k = Some l) by by rewrite (same_by_key _ _ Hsame).
  destruct (delete_remove_spec s1 k l Hok1 Hl1) as (_ & _ & _ & Hbk & Hbi & _).
  assert (Hdid : deviceid (deref s1 l) = deviceid (deref s l)).
  { by destruct (set_socketid_None_fields _ _ (same_fields _ _ Hsame l))
      as (_ & _ & ? & _). }
  destruct (ok_key_only s Hok k l Hl) as (Hin & _ & _).
  pose proof (ok_by_id s Hok l Hin) as Hid.
  destruct (ok_id_only s Hok _ _ Hid) as (_ & _ & Hne).
  split_and!; [|rewrite Hbi, Hdid|done].
  - by rewrite Hbk, (same_by_key _ _ Hsame).
  - by rewrite (same_by_id _ _ Hsame).
Qed.

(** X11.  Once a device is deleted, its key and its device id are unknown to
    every entry point: /register answers "Invalid key", a second delete
    answers 404, /send to the device id answers "Device not registered" and
    a socket presenting the device id is refused at the handshake. *)
Theorem deleted_device_unknown s k l now dest text rnd sid :
  store_ok s → deviceByKey s !! k = Some l → dest ≠ "" → text ≠ "" →
  let did := deviceid (deref s l) in
  let s' := (step s (DeleteDevice k)).1 in
  step s' (PostRegister (Some k) now) = (s', [Respond 404 (ErrorBody "Invalid key")]) ∧
  step s' (DeleteDevice k) = (s', [Respond 404 (ErrorBody "Device key not found")]) ∧
  step s' (PostSend (Some did) (Some dest) (Some text) now rnd) =
    (s', [Respond 404 (ErrorBody "Device not registered")]) ∧
  step s' (Connect sid (Some did) now) = (s', [NextError "Device not registered"]).
Proof.
  intros Hok Hl Hdest Htext did s'.
  destruct (delete_device_indices s k l Hok Hl) as (Hbk & Hbi & Hdid).
  fold s' in Hbk, Hbi. fold did in Hbi, Hdid.
  destruct (ok_key_only s Hok k l Hl) as (_ & _ & Hk).
  assert (Hk' : deviceByKey s' !! k = None) by (rewrite Hbk; apply lookup_delete_eq).
  assert (Hi' : deviceByDeviceId s' !! did = None) by (rewrite Hbi; apply lookup_delete_eq).
  split_and!; cbn [step].
  - unfold post_register. by rewrite (present_Some_2 k Hk), Hk'.
  - unfold delete_device. by rewrite Hk'.
  - unfold post_send.
    by rewrite (present_Some_2 _ Hdid), (present_Some_2 _ Hdest),
      (present_Some_2 _ Htext), Hi'.
  - unfold connect, auth_middleware. by rewrite (present_Some_2 _ Hdid), Hi'.
Qed.

Lemma deleted_device_unknown_witness :
  store_ok (run init bound_run).1 ∧
  deviceByKey (run init bound_run).1 !! "abc123" = Some 0%nat ∧
  step (step (run init bound_run).1 (DeleteDevice "abc123")).1 (DeleteDevice "abc123") =
    ((step (run init bound_run).1 (DeleteDevice "abc123")).1,
     [Respond 404 (ErrorBody "Device key not found")]).
Proof.
  assert (H : store_ok (run init bound_run).1).
  { apply (wf_run init bound_run wf_init). vm_compute. reflexivity. }
  assert (Hl : deviceByKey (run init bound_run).1 !! "abc123" = Some 0%nat)
    by (vm_compute; reflexivity).
  split_and!; [exact H|exact Hl|].
  assert (Hne : ∀ a b, String a b ≠ "") by done.
  destruct (deleted_device_unknown _ "abc123" 0%nat 3000%Z "+15551234567" "hi"
              "k3j9x0q1z" "s9" H Hl (Hne _ _) (Hne _ _)) as (_ & Hd & _).
  exact Hd.
Defined.

(** ** Connections *)

(** X12.  /send goes to the connection that was bound last: once a socket has
    passed the handshake for a device id, a /send to that device id pushes
    [insert-sms] to that socket, whatever the device was bound to before. *)
Theorem send_reaches_latest_connection s did l sid now dest text now' rnd :
  store_ok s → deviceByDeviceId s !! did = Some l →
  sid ≠ "" → dest ≠ "" → text ≠ "" →
  let s1 := (step s (Connect sid (Some did) now)).1 in
  (step s1 (PostSend (Some did) (Some dest) (Some text) now' rnd)).2 =
    [SetTimeout (length (calls s)) 4500;
     Emit sid (InsertSms dest text (make_requestId did now' rnd))].
Proof.
  intros Hok Hl Hsid Hdest Htext.
  destruct (ok_id_only s Hok did l Hl) as (Hin & _ & Hdid).
  pose proof (ok_bound s Hok l Hin) as Hb.
  set (s1 := (step s (Connect sid (Some did) now)).1).
  assert (H1 : deviceByDeviceId s1 = deviceByDeviceId s ∧ calls s1 = calls s ∧
               socketid (deref s1 l) = Some sid).
  { subst s1. cbn [step]. unfold connect, auth_middleware.
    rewrite (present_Some_2 did Hdid), Hl. unfold on_connection. cbn [fst].
    split_and!; [done|done|].
    change (deref (set_sockets ?m (set_cacheDirty true ?x)) l) with (deref x l).
    rewrite deref_write_eq by done. by destruct (deref s l). }
  destruct H1 as (Hbi & Hc & Hsock).
  cbn [step]. unfold post_send.
  rewrite (present_Some_2 did Hdid), (present_Some_2 _ Hdest), (present_Some_2 _ Htext).
  rewrite Hbi, Hl, Hsock, (present_Some_2 sid Hsid). cbn [snd]. by rewrite Hc.
Qed.

Lemma send_reaches_latest_connection_witness :
  store_ok (run init bound_run).1 ∧
  deviceByDeviceId (run init bound_run).1 !! dev1 = Some 0%nat ∧
  (step (step (run init bound_run).1 (Connect "s2" (Some dev1) 2000)).1
        (PostSend (Some dev1) (Some "+15551234567") (Some "hi") 3000 "k3j9x0q1z")).2 =
    [SetTimeout (length (calls (run init bound_run).1)) 4500;
     Emit "s2" (InsertSms "+15551234567" "hi" (make_requestId dev1 3000 "k3j9x0q1z"))].
Proof.
  assert (H : store_ok (run init bound_run).1).
  { apply (wf_run init bound_run wf_init). vm_compute. reflexivity. }
  assert (Hl : deviceByDeviceId (run init bound_run).1 !! dev1 = Some 0%nat)
    by (vm_compute; reflexivity).
  split_and!; [exact H|exact Hl|].
  assert (Hne : ∀ a b, String a b ≠ "") by done.
  exact (send_reaches_latest_connection _ dev1 0%nat "s2" 2000%Z "+15551234567" "hi"
           3000%Z "k3j9x0q1z" H Hl (Hne _ _) (Hne _ _) (Hne _ _)).
Defined.

(** X13.  A handshake is refused exactly when it carries no device id, an
    empty one, or one that is not registered; a refused handshake leaves no
    trace: no socket is entered, no record is touched, the dirty flag keeps
    its value. *)
Theorem handshake_refused_iff s sid auth now :
  (∃ msg, step s (Connect sid auth now) = (s, [NextError msg])) ↔
  ¬ ∃ did l, auth = Some did ∧ did ≠ "" ∧ deviceByDeviceId s !! did = Some l.
Proof.
  cbn [step]. unfold connect, auth_middleware. split.
  - intros [msg Hr] (did & l & -> & Hdid & Hl).
    rewrite (present_Some_2 did Hdid), Hl in Hr. unfold on_connection in Hr.
    by injection Hr.
  - intros Hno. destruct (present auth) as [did|] eqn:Hp; [|by eexists].
    destruct (deviceByDeviceId s !! did) as [l|] eqn:Hl; [|by eexists].
    exfalso. apply Hno. apply present_Some in Hp as [-> ?]. by exists did, l.
Qed.

(** X14.  One tick of the liveness check closes the socket exactly when more
    than 30000 ms have passed since its last heartbeat (or, with none yet,
    since it connected); at 30000 ms or less the tick changes nothing.
    Closing unbinds the device and sets the dirty flag. *)
Theorem heartbeat_check_closes_iff s sid sock now :
  sockets s !! sid = Some sock →
  let s' := (step s (HeartbeatCheck sid now)).1 in
  (sockets s' !! sid = None ↔ (30000 < now - lastHeartbeat sock)%Z) ∧
  ((now - lastHeartbeat sock ≤ 30000)%Z → s' = s) ∧
  ((30000 < now - lastHeartbeat sock)%Z →
     socketid (deref s' (deviceObj sock)) = None ∧ cacheDirty s' = true).
Proof.
  intros Hs. cbn [step fst]. unfold heartbeat_check. rewrite Hs.
  destruct (Z.ltb_spec 30000 (now - lastHeartbeat sock)) as [Hlt|Hge].
  - unfold disconnect. rewrite Hs. unfold on_disconnect.
    split_and!.
    + split; [done|]. intros _. simpl. apply lookup_delete_eq.
    + lia.
    + intros _. split; [|done].
      change (deref (set_cacheDirty true ?x) ?l) with (deref x l).
      rewrite deref_write_None, decide_True by done. by destruct (deref _ _).
  - split_and!; [|done|lia].
    split; [|lia]. rewrite Hs. done.
Qed.

Lemma heartbeat_check_closes_iff_witness :
  sockets (run init bound_run).1 !! "s1" = Some (Socket dev1 0 1000) ∧
  sockets (step (run init bound_run).1 (HeartbeatCheck "s1" 31001)).1 !! "s1" = None.
Proof.
  assert (H : sockets (run init bound_run).1 !! "s1" = Some (Socket dev1 0 1000))
    by (vm_compute; reflexivity).
  split; [exact H|].
  destruct (heartbeat_check_closes_iff _ "s1" _ 31001%Z H) as ([_ Hc] & _).
  apply Hc. cbn [lastHeartbeat]. lia.
Defined.

(** X15.  A heartbeat resets the liveness window: after a heartbeat at time
    [t], a check up to 30000 ms later leaves the connection as it is. *)
Theorem heartbeat_extends_life s sid t now :
  is_Some (sockets s !! sid) → (now - t ≤ 30000)%Z →
  let s1 := (step s (Heartbeat sid t)).1 in
  step s1 (HeartbeatCheck sid now) = (s1, []).
Proof.
  intros [sock Hs] Ht. cbn [step fst]. unfold on_heartbeat. rewrite Hs.
  unfold heartbeat_check. cbn [sockets set_sockets]. rewrite lookup_insert_eq.
  cbn [lastHeartbeat]. by rewrite (proj2 (Z.ltb_ge _ _) Ht).
Qed.

Lemma heartbeat_extends_life_witness :
  sockets (run init bound_run).1 !! "s1" = Some (Socket dev1 0 1000) ∧
  step (step (run init bound_run).1 (Heartbeat "s1" 40000)).1 (HeartbeatCheck "s1" 70000)
  = ((step (run init bound_run).1 (Heartbeat "s1" 40000)).1, []).
Proof.
  assert (H : sockets (run init bound_run).1 !! "s1" = Some (Socket dev1 0 1000))
    by (vm_compute; reflexivity).
  split; [exact H|].
  apply heartbeat_extends_life; [by rewrite H|lia].
Defined.

(** ** Expiry *)

(** X16.  Expiry is final: if /register answers "Key has expired" for a key
    at some time, it gives the same answer at every later time, as long as
    the registry is the same. *)
Theorem register_expired_stays s k now now' :
  (now ≤ now')%Z →
  step s (PostRegister k now) = (s, [expired_response]) →
  step s (PostRegister k now') = (s, [expired_response]).
Proof.
  intros Hle. cbn [step]. unfold post_register, expired_response.
  destruct (present k) as [k'|]; [|done].
  destruct (deviceByKey s !! k') as [l|]; [|done].
  unfold isKeyValid. destruct (expDate (deref s l)) as [[t|]|]; try done.
  destruct (Z.ltb_spec now t); [done|]. intros _.
  destruct (Z.ltb_spec now' t); [lia|done].
Qed.

Lemma register_expired_stays_witness :
  step (run init bound_run).1 (PostRegister (Some "k2") 5000)
    = ((run init bound_run).1, [expired_response]) ∧
  step (run init bound_run).1 (PostRegister (Some "k2") 9000)
    = ((run init bound_run).1, [expired_response]).
Proof.
  assert (H : step (run init bound_run).1 (PostRegister (Some "k2") 5000)
              = ((run init bound_run).1, [expired_response])).
  { cbn [step]. unfold post_register.
    assert (Hl : deviceByKey (run init bound_run).1 !! "k2" = Some 1%nat)
      by (vm_compute; reflexivity).
    assert (Hv : isKeyValid (deref (run init bound_run).1 1) 5000 = false)
      by (vm_compute; reflexivity).
    cbn [present truthy String.eqb Ascii.eqb Bool.eqb negb]. by rewrite Hl, Hv. }
  split; [exact H|].
  apply (register_expired_stays _ (Some "k2") 5000 9000); [lia|exact H].
Defined.

(** ** After a call is settled *)

Lemma step_pending_origin s e rid c :
  pendingRequests (step s e).1 !! rid = Some c →
  pendingRequests s !! rid = Some c ∨
  ∃ did dest text now rnd,
    e = PostSend did dest text now rnd ∧ rid = make_requestId (default "" did) now rnd.
Proof.
  assert (Hsame : ∀ s', pendingRequests s' = pendingRequests s →
            pendingRequests s' !! rid = Some c →
            pendingRequests s !! rid = Some c ∨
            ∃ did dest text now rnd,
              e = PostSend did dest text now rnd ∧
              rid = make_requestId (default "" did) now rnd).
  { intros s' ->. by left. }
  destruct e; cbn [step fst].
  - apply Hsame. unfold post_device. destruct (present k); [|done].
    by destruct (deviceByKey s !! _).
  - apply Hsame. unfold delete_device. destruct (deviceByKey s !! k); [|done].
    unfold delete_notify. destruct (present _) as [sid|]; simpl; [|done].
    by destruct (disconnect_broker sid s).
  - apply Hsame. unfold post_register. destruct (present k); [|done].
    destruct (deviceByKey s !! _); [|done]. by destruct (isKeyValid _ _).
  - unfold post_send.
    destruct (present deviceId) as [did|] eqn:Hd; [|by apply Hsame].
    apply present_Some in Hd as [-> _].
    destruct (present destNumber), (present textMessage); try by apply Hsame.
    destruct (deviceByDeviceId s !! _); [|by apply Hsame].
    destruct (present (socketid _)); [|by apply Hsame]. simpl.
    rewrite lookup_insert. case_decide as Hc; [|by left].
    intros _. right. by exists (Some did), destNumber, textMessage, now, rnd.
  - apply Hsame. unfold connect. by destruct (auth_middleware auth s) as [?|[? ?]].
  - destruct (sockets s !! sid); [|by apply Hsame].
    apply Hsame. by destruct (on_sms_response_frame r s) as (_ & _ & _ & _ & _ & _ & ?).
  - apply Hsame. unfold on_heartbeat. by destruct (sockets s !! sid).
  - apply Hsame. unfold heartbeat_check. destruct (sockets s !! sid); [|done].
    destruct (_ <? _)%Z; [|done]. by destruct (disconnect_broker sid s).
  - apply Hsame. by destruct (disconnect_broker sid s).
  - unfold timeout_callback. destruct (calls s !! c0) as [cl0|]; [|by apply Hsame].
    destruct (timeout cl0); try by apply Hsame.
    destruct (promise cl0); simpl; intros Hl; left;
      repeat (apply lookup_delete_Some in Hl as [_ Hl]); done.
  - apply Hsame. unfold saveDevices. by destruct (cacheDirty s), wok.
  - apply Hsame. unfold on_sigint, saveDevices.
    destruct (clear_socketids_broker s).
    by destruct (cacheDirty (clear_socketids s)), wok.
Qed.

Lemma step_retired s e rid :
  fresh s e = true → retired rid s → retired rid (step s e).1.
Proof.
  intros Hfresh [Hin Hnone]. split.
  - apply list_elem_of_fmap in Hin as (cl & -> & Hcl).
    apply list_elem_of_lookup in Hcl as [c Hc].
    destruct (step_call_slot s e c cl Hc) as (cl' & Hc' & <- & _).
    apply list_elem_of_fmap. exists cl'. split; [done|].
    by eapply list_elem_of_lookup_2.
  - destruct (pendingRequests (step s e).1 !! rid) as [c|] eqn:Hp; [|done].
    exfalso. apply step_pending_origin in Hp
      as [Hp|(did & dest & text & now & rnd & -> & ->)]; [congruence|].
    simpl in Hfresh. by apply bool_decide_eq_true in Hfresh.
Qed.

Lemma run_retired s es rid :
  fresh_trace s es = true → retired rid s → retired rid (run s es).1.
Proof.
  revert s. induction es as [|e es IH]; intros s Hfresh Hr; [done|].
  simpl in Hfresh. apply andb_true_iff in Hfresh as [He Hes].
  rewrite run_cons. cbn [fst]. apply IH; [done|by apply step_retired].
Qed.

(** X17.  A reply that comes after the timeout is dropped.  Once the timer of
    an in-flight call has fired, a reply tagged with its request id, at any
    later point and on any connection, changes nothing and produces nothing
    (request ids of later calls being assumed not to repeat it). *)
Theorem late_reply_dropped s c rid es sid r :
  awaiting c rid s →
  fresh_trace (step s (TimeoutFires c)).1 es = true →
  resp_requestId r = JStr rid →
  let s2 := (run (step s (TimeoutFires c)).1 es).1 in
  step s2 (SmsResponse sid (Some r)) = (s2, []).
Proof.
  intros Haw Hfresh Hr s2.
  assert (Hret : retired rid (step s (TimeoutFires c)).1).
  { destruct (timeout_of_awaiting s c rid Haw) as (_ & Hnone & _).
    split; [|done]. destruct Haw as [Hc _].
    destruct (step_call_slot s (TimeoutFires c) c _ Hc) as (cl' & Hc' & Hrid & _).
    apply list_elem_of_fmap. exists cl'. split; [done|].
    by eapply list_elem_of_lookup_2. }
  destruct (run_retired _ es rid Hfresh Hret) as [_ Hnone]. fold s2 in Hnone.
  cbn [step]. destruct (sockets s2 !! sid); [|done].
  unfold on_sms_response. by rewrite Hr, Hnone.
Qed.

Lemma late_reply_dropped_witness :
  awaiting 0 rid1 (run init sent_run).1 ∧
  step (run (step (run init sent_run).1 (TimeoutFires 0)).1 [SaveTick true]).1
       (SmsResponse "s1" (Some reply1))
  = ((run (step (run init sent_run).1 (TimeoutFires 0)).1 [SaveTick true]).1, []).
Proof.
  assert (H : awaiting 0 rid1 (run init sent_run).1).
  { split; vm_compute; reflexivity. }
  split; [exact H|].
  assert (Hf : fresh_trace (step (run init sent_run).1 (TimeoutFires 0)).1
                           [SaveTick true] = true) by reflexivity.
  assert (Hr : resp_requestId reply1 = JStr rid1) by reflexivity.
  pose proof (late_reply_dropped _ 0%nat rid1 [SaveTick true] "s1" reply1 H Hf Hr) as Hw.
  exact Hw.
Defined.

Lemma other_call_rid s c c0 cl cl0 :
  broker_ok s → calls s !! c = Some cl → calls s !! c0 = Some cl0 → c0 ≠ c →
  requestId cl0 ≠ requestId cl.
Proof.
  intros Hok Hc Hc0 Hne Heq.
  apply Hne, (NoDup_lookup _ c0 c (requestId cl) (ok_rids s Hok));
    by rewrite list_lookup_fmap, ?Hc0, ?Hc; simpl; rewrite ?Heq.
Qed.

Lemma step_leaked s e c rid :
  broker_ok s → fresh s e = true → leaked c rid s → leaked c rid (step s e).1.
Proof.
  intros Hok Hfresh Hlk.
  assert (Hsame : ∀ s', calls s' = calls s → pendingRequests s' = pendingRequests s →
                        leaked c rid s').
  { intros s' Hc Hp. unfold leaked. by rewrite Hc, Hp. }
  pose proof Hlk as [Hc Hp].
  destruct e; cbn [step fst].
  - apply Hsame; unfold post_device; destruct (present k); try done;
      by destruct (deviceByKey s !! _).
  - apply Hsame; unfold delete_device; destruct (deviceByKey s !! k); try done;
      unfold delete_notify; destruct (present _) as [sid|]; simpl; try done;
      by destruct (disconnect_broker sid s).
  - apply Hsame; unfold post_register; destruct (present k); try done;
      destruct (deviceByKey s !! _); try done; by destruct (isKeyValid _ _).
  - simpl in Hfresh. apply bool_decide_eq_true in Hfresh.
    unfold post_send.
    destruct (present deviceId) as [did|] eqn:Hd; [|by apply Hsame].
    apply present_Some in Hd as [-> _]. simpl in Hfresh.
    destruct (present destNumber), (present textMessage); try by apply Hsame.
    destruct (deviceByDeviceId s !! _); [|by apply Hsame].
    destruct (present (socketid _)); [|by apply Hsame].
    split; simpl.
    + rewrite lookup_app_l by by eapply lookup_lt_Some. done.
    + rewrite lookup_insert_ne; [done|].
      intros Heq. apply Hfresh. rewrite Heq.
      apply list_elem_of_fmap. exists (Call rid Cleared Resolved).
      split; [done|]. by eapply list_elem_of_lookup_2.
  - apply Hsame; unfold connect; by destruct (auth_middleware auth s) as [?|[? ?]].
  - destruct (sockets s !! sid); [|by apply Hsame].
    unfold on_sms_response. destruct r as [r|]; [|by apply Hsame].
    destruct (resp_requestId r) as [| | | |rid']; try by apply Hsame.
    destruct (pendingRequests s !! rid') as [c'|] eqn:Hp'; [|by apply Hsame].
    unfold resolver. destruct (calls s !! c') as [cl0|] eqn:Hc0; [|by apply Hsame].
    destruct (decide (c' = c)) as [->|Hne].
    + rewrite Hc in Hc0. injection Hc0 as <-. simpl.
      split; simpl; [|done]. unfold set_call. simpl.
      by rewrite list_insert_id.
    + destruct (promise cl0); simpl; split; simpl; try done;
        unfold set_call; by rewrite list_lookup_insert_ne.
  - apply Hsame; unfold on_heartbeat; by destruct (sockets s !! sid).
  - apply Hsame; unfold heartbeat_check; destruct (sockets s !! sid); try done;
      destruct (_ <? _)%Z; try done; by destruct (disconnect_broker sid s).
  - apply Hsame; by destruct (disconnect_broker sid s).
  - unfold timeout_callback.
    destruct (calls s !! c0) as [cl0|] eqn:Hc0; [|by apply Hsame].
    destruct (decide (c0 = c)) as [->|Hne].
    + rewrite Hc in Hc0. injection Hc0 as <-. simpl. by apply Hsame.
    + pose proof (other_call_rid s c c0 _ cl0 Hok Hc Hc0 Hne) as Hrid.
      simpl in Hrid.
      destruct (timeout cl0); try by apply Hsame.
      destruct (promise cl0); simpl; split; simpl;
        rewrite ?lookup_delete_ne by done; try done;
        unfold set_call; by rewrite list_lookup_insert_ne.
  - apply Hsame; unfold saveDevices; by destruct (cacheDirty s), wok.
  - apply Hsame; unfold on_sigint, saveDevices;
      destruct (clear_socketids_broker s);
      by destruct (cacheDirty (clear_socketids s)), wok.
Qed.

Lemma run_leaked s es c rid :
  broker_ok s → fresh_trace s es = true → leaked c rid s → leaked c rid (run s es).1.
Proof.
  revert s. induction es as [|e es IH]; intros s Hok Hfresh Hlk; [done|].
  simpl in Hfresh. apply andb_true_iff in Hfresh as [He Hes].
  rewrite run_cons. cbn [fst].
  apply IH; [by apply step_broker_ok|done|by apply step_leaked].
Qed.

(** X18.  The resolver of a call that a reply has answered stays in
    [pendingRequests] for good: no later event removes it (request ids of
    later calls being assumed not to repeat it).  Only the timeout path
    deletes entries, and the reply has cleared that timer. *)
Theorem replied_entry_never_removed s c rid sid r es :
  broker_ok s → awaiting c rid s →
  is_Some (sockets s !! sid) → resp_requestId r = JStr rid →
  fresh_trace (step s (SmsResponse sid (Some r))).1 es = true →
  pendingRequests (run (step s (SmsResponse sid (Some r))).1 es).1 !! rid = Some c.
Proof.
  intros Hok Haw [sock Hs] Hr Hfresh.
  assert (Hlk : leaked c rid (step s (SmsResponse sid (Some r))).1).
  { destruct Haw as [Hc Hp]. cbn [step]. rewrite Hs.
    unfold on_sms_response. rewrite Hr, Hp. unfold resolver. rewrite Hc. simpl.
    split; simpl; [|done]. unfold set_call. simpl.
    by rewrite list_lookup_insert_eq by by eapply lookup_lt_Some. }
  assert (Hok1 : broker_ok (step s (SmsResponse sid (Some r))).1)
    by by apply step_broker_ok.
  by destruct (run_leaked _ es c rid Hok1 Hfresh Hlk).
Qed.

Lemma replied_entry_never_removed_witness :
  broker_ok (run init sent_run).1 ∧ awaiting 0 rid1 (run init sent_run).1 ∧
  pendingRequests
    (run (step (run init sent_run).1 (SmsResponse "s1" (Some reply1))).1
         [TimeoutFires 0; SaveTick true]).1 !! rid1 = Some 0%nat.
Proof.
  assert (H : broker_ok (run init sent_run).1).
  { apply (wf_run init sent_run wf_init). vm_compute. reflexivity. }
  assert (Ha : awaiting 0 rid1 (run init sent_run).1).
  { split; vm_compute; reflexivity. }
  split_and!; [exact H|exact Ha|].
  assert (Hs : is_Some (sockets (run init sent_run).1 !! "s1")).
  { exists (Socket dev1 0 1000). vm_compute. reflexivity. }
  assert (Hr : resp_requestId reply1 = JStr rid1) by reflexivity.
  assert (Hf : fresh_trace (step (run init sent_run).1 (SmsResponse "s1" (Some reply1))).1
                           [TimeoutFires 0; SaveTick true] = true) by reflexivity.
  pose proof (replied_entry_never_removed _ 0%nat rid1 "s1" reply1
                [TimeoutFires 0; SaveTick true] H Ha Hs Hr Hf) as Hw.
  exact Hw.
Defined.

(** ** Loading a file the server did not write *)

Lemma foldl_index_last ds s0 m :
  objs s0 = ds → deviceByKey s0 = ∅ → deviceByDeviceId s0 = ∅ →
  (m ≤ length ds)%nat →
  let s := foldl index_device s0 (seq 0 m) in
  (∀ k j, deviceByKey s !! k = Some j ↔
          (j < m)%nat ∧ key <$> ds !! j = Some k ∧
          ∀ j', (j < j' < m)%nat → key <$> ds !! j' ≠ Some k) ∧
  deviceByDeviceId s !! "" = None.
Proof.
  intros Ho Hk0 Hd0. induction m as [|m IH]; intros Hm s.
  - subst s. simpl. rewrite Hk0, Hd0. split; [|done].
    intros k j. rewrite lookup_empty. split; [done|]. intros [? _]. lia.
  - subst s. rewrite seq_S, foldl_app. simpl.
    destruct IH as [IHk IHd]; [lia|].
    set (s := foldl index_device s0 (seq 0 m)) in *.
    assert (Hobjs : objs s = ds).
    { subst s. by destruct (foldl_index_frame (seq 0 m) s0) as [-> _]. }
    destruct (lookup_lt_is_Some_2 ds m) as [d Hd]; [lia|].
    assert (Hderef : deref s m = d).
    { unfold deref. rewrite Hobjs. by apply list_lookup_total_correct. }
    unfold index_device. rewrite Hderef. simpl. split.
    + intros k j. rewrite lookup_insert. case_decide as Hc.
      * subst k. split.
        -- intros [= <-]. split_and!; [lia|by rewrite Hd|]. intros j' ?. lia.
        -- intros (Hj & Hkj & Hlast).
           destruct (decide (j = m)) as [->|Hne]; [done|].
           exfalso. apply (Hlast m); [lia|]. by rewrite Hd.
      * rewrite IHk. split.
        -- intros (Hj & Hkj & Hlast). split_and!; [lia|done|].
           intros j' Hj'. destruct (decide (j' = m)) as [->|Hne].
           ++ rewrite Hd. simpl. congruence.
           ++ apply Hlast. lia.
        -- intros (Hj & Hkj & Hlast).
           assert (j ≠ m).
           { intros ->. rewrite Hd in Hkj. simpl in Hkj. congruence. }
           split_and!; [lia|done|]. intros j' Hj'. apply Hlast. lia.
    + destruct (truthy (deviceid d)) eqn:Ht; [|done].
      rewrite lookup_insert_ne; [done|].
      apply truthy_true in Ht. done.
Qed.

(** X19.  Loading enters the records in file order and a later entry
    overwrites an earlier one: a key that occurs more than once in the file
    finds the last record that carries it, whatever records the array holds.  A
    record without a device id is not entered in the by-device-id index. *)
Theorem load_last_record_wins ds wok k j d :
  ds !! j = Some d → key d = k →
  (∀ j' d', (j < j')%nat → ds !! j' = Some d' → key d' ≠ k) →
  ∃ s, (startServer (Parsed ds) wok).1 = Registry s ∧
  deviceByKey s !! k = Some j ∧ deref s j = d ∧
  deviceByDeviceId s !! "" = None.
Proof.
  intros Hj Hk Hlast.
  set (s0 := State ds (seq 0 (length ds)) ∅ ∅ ∅ false ∅ []).
  exists (foldl index_device s0 (seq 0 (length ds))).
  split; [reflexivity|].
  destruct (foldl_index_frame (seq 0 (length ds)) s0) as [Ho _].
  destruct (foldl_index_last ds s0 (length ds) eq_refl eq_refl eq_refl (le_n _))
    as [Hidx Hemp].
  split_and!; [|unfold deref; rewrite Ho; by apply list_lookup_total_correct|done].
  apply Hidx. split_and!.
  - by eapply lookup_lt_Some.
  - by rewrite Hj; simpl; rewrite Hk.
  - intros j' [Hlt _]. destruct (ds !! j') as [d'|] eqn:Hd'; [|done].
    simpl. intros [= Heq]. by apply (Hlast j' d' Hlt Hd').
Qed.

Lemma load_last_record_wins_witness :
  edited_file !! 2%nat = Some (Device "03" "dup" "dev_b" None None) ∧
  ∃ s, (startServer (Parsed edited_file) true).1 = Registry s ∧
       deviceByKey s !! "dup" = Some 2%nat.
Proof.
  assert (H : edited_file !! 2%nat = Some (Device "03" "dup" "dev_b" None None))
    by reflexivity.
  split; [exact H|].
  destruct (load_last_record_wins edited_file true "dup" 2%nat _ H eq_refl)
    as (s & Hreg & Hk & _).
  - intros [|[|[|j']]] d' Hlt Hd'; try lia. done.
  - exists s. split; [exact Hreg|exact Hk].
Defined.

(** ** A repeated request id *)

(** X20.  The table holds one resolver per request id.  If a /send draws
    the request id of a call that is still in flight, the new resolver
    displaces the old one: a reply tagged with that id answers the later
    call only, and when the earlier call's timer fires it answers the
    earlier call with 408 and deletes the entry, so that the later call
    cannot be answered by a reply any more. *)
Theorem repeated_request_id s c rid did l sid dest text now rnd sid' r :
  awaiting c rid s →
  deviceByDeviceId s !! did = Some l → did ≠ "" → dest ≠ "" → text ≠ "" →
  present (socketid (deref s l)) = Some sid →
  make_requestId did now rnd = rid →
  is_Some (sockets s !! sid') → resp_requestId r = JStr rid →
  let s1 := (step s (PostSend (Some did) (Some dest) (Some text) now rnd)).1 in
  let s2 := (step s1 (TimeoutFires c)).1 in
  (step s1 (SmsResponse sid' (Some r))).2 =
    [RespondCall (length (calls s)) 200
       (ProcessedBody "Message processed by device" (resp_status r) (resp_message r))] ∧
  (step s1 (TimeoutFires c)).2 =
    [RespondCall c 408 (TimeoutBody "Device did not respond in time" false)] ∧
  step s2 (SmsResponse sid' (Some r)) = (s2, []).
Proof.
  intros [Hc Hp] Hl Hdid Hdest Htext Hsid Hrid [sock Hs] Hr.
  assert (Hlt : (c < length (calls s))%nat) by by eapply lookup_lt_Some.
  assert (H1 : step s (PostSend (Some did) (Some dest) (Some text) now rnd) =
               (set_pending (<[rid := length (calls s)]> (pendingRequests s))
                            (calls s ++ [Call rid Armed Pending]) s,
                [SetTimeout (length (calls s)) 4500;
                 Emit sid (InsertSms dest text rid)])).
  { cbn [step]. unfold post_send.
    rewrite (present_Some_2 did Hdid), (present_Some_2 _ Hdest),
      (present_Some_2 _ Htext), Hl, Hsid. by rewrite Hrid. }
  rewrite H1. cbn [fst]. set (s1 := set_pending _ _ s).
  assert (Hc1 : calls s1 !! c = Some (Call rid Armed Pending)).
  { unfold s1. simpl. by rewrite lookup_app_l. }
  assert (Hnew : calls s1 !! length (calls s) = Some (Call rid Armed Pending)).
  { unfold s1. simpl. by rewrite list_lookup_middle. }
  assert (Hp1 : pendingRequests s1 !! rid = Some (length (calls s))).
  { unfold s1. simpl. apply lookup_insert_eq. }
  assert (Hs1 : sockets s1 !! sid' = Some sock) by done.
  split_and!.
  - cbn [step]. rewrite Hs1. unfold on_sms_response. rewrite Hr, Hp1.
    unfold resolver. by rewrite Hnew.
  - cbn [step]. unfold timeout_callback. by rewrite Hc1.
  - assert (H2 : step s1 (TimeoutFires c) =
        (set_pending (delete rid (delete rid (pendingRequests s1)))
                     (set_call c Fired Rejected (Call rid Armed Pending) (calls s1)) s1,
         [RespondCall c 408 (TimeoutBody "Device did not respond in time" false)])).
    { cbn [step]. unfold timeout_callback. by rewrite Hc1. }
    rewrite H2. cbn [fst]. set (s2 := set_pending _ _ s1).
    assert (Hs2 : sockets s2 !! sid' = Some sock) by done.
    assert (Hp2 : pendingRequests s2 !! rid = None).
    { unfold s2. simpl. apply lookup_delete_eq. }
    cbn [step]. rewrite Hs2. unfold on_sms_response. by rewrite Hr, Hp2.
Qed.

Lemma repeated_request_id_witness :
  awaiting 0 rid1 (run init sent_run).1 ∧
  (step (step (run init sent_run).1 send1).1 (SmsResponse "s1" (Some reply1))).2 =
    [RespondCall (length (calls (run init sent_run).1)) 200
       (ProcessedBody "Message processed by device"
                      (resp_status reply1) (resp_message reply1))].
Proof.
  assert (H : awaiting 0 rid1 (run init sent_run).1).
  { split; vm_compute; reflexivity. }
  split; [exact H|].
  assert (Hl : deviceByDeviceId (run init sent_run).1 !! dev1 = Some 0%nat)
    by (vm_compute; reflexivity).
  assert (Hsid : present (socketid (deref (run init sent_run).1 0)) = Some "s1")
    by (vm_compute; reflexivity).
  assert (Hrid : make_requestId dev1 3000 "k3j9x0q1z" = rid1) by (vm_compute; reflexivity).
  assert (Hs : is_Some (sockets (run init sent_run).1 !! "s1")).
  { exists (Socket dev1 0 1000). vm_compute. reflexivity. }
  assert (Hr : resp_requestId reply1 = JStr rid1) by reflexivity.
  assert (Hne : ∀ a b, String a b ≠ "") by done.
  destruct (repeated_request_id _ 0%nat rid1 dev1 0%nat "s1" "+15551234567" "hi"
              3000%Z "k3j9x0q1z" "s1" reply1 H Hl (Hne _ _) (Hne _ _) (Hne _ _)
              Hsid Hrid Hs Hr) as (Hw & _).
  exact Hw.
Defined.
